(** * KPN order assignment: the two Lightning web components

    A shallow embedding of [availableProducts.js] (the Product List View)
    and [orderProducts.js] (the Order Line View), and the properties of
    their client-side state handling.

    Conventions of the embedding.
    - A component instance is a record of its fields; a method is a
      computation in a state monad that also logs the effects it has on
      the platform (toasts, remote calls, published messages, timers) and
      can raise a JavaScript exception.
    - [await call] logs the remote call and continues with the outcome the
      platform delivers, which the method takes as an argument: a method
      is followed from its call to the settlement of its promise.
    - Work a method hands to the event loop without awaiting it
      ([setTimeout], [Promise.resolve().then], the promise of
      [refreshApex]) is logged as a scheduled task and runs as an
      operation of its own.
    - The operations of a view are its methods taken one after the other.
      [loadProducts] is also given in its two turns of the event loop, to
      show what a handler that runs during its [await] can do.

    - [String.prototype.toLowerCase] follows the Unicode case tables of
      the engine, which the repository does not hold: the Product List
      View is modelled over any lower-casing ([Js.StringPrototype]), and
      the examples compute it on strings whose upper-case characters are
      all in ASCII.

    The repository holds an earlier revision of [orderProducts.js] as
    well, without the Remove action and the decoration of the rows; its
    [handleActivateOrder], [handleProductAddedMessage] and
    [getErrorMessage] read the same. *)

From Stdlib Require Import ZArith List String Ascii Bool Lia RelationClasses.
Import ListNotations.

Local Open Scope string_scope.
Local Open Scope list_scope.
Local Open Scope Z_scope.
Set Warnings "-register-all".

(* ===================================================================== *)
(** ** JavaScript values                                                  *)
(* ===================================================================== *)

Module Js.

(** The values a [catch] clause can bind: primitives and plain data
    objects. An object is its list of own properties; a read takes the
    first binding of the key. Numbers are the integers. *)
Inductive value : Type :=
| JUndefined
| JNull
| JBool (b : bool)
| JNum (n : Z)
| JStr (s : string)
| JObj (fields : list (string * value)).

(** The result of evaluating an expression or a block. *)
Inductive completion (A : Type) : Type :=
| Normal (a : A)
| Throw (e : value).
Arguments Normal {A} a.
Arguments Throw {A} e.

Definition cbind {A B} (c : completion A) (k : A -> completion B) : completion B :=
  match c with
  | Normal a => k a
  | Throw e => Throw e
  end.

(** [ToBoolean]. *)
Definition truthy (v : value) : bool :=
  match v with
  | JUndefined | JNull => false
  | JBool b => b
  | JNum n => negb (n =? 0)
  | JStr s => negb (s =? "")%string
  | JObj _ => true
  end.

(** Truthiness of a string-valued field that may be missing. *)
Definition truthy_str (o : option string) : bool :=
  match o with
  | Some s => negb (s =? "")%string
  | None => false
  end.

(** [a || b] on string-valued fields that may be missing. *)
Definition or_str (a b : option string) : option string :=
  if truthy_str a then a else b.

Definition of_str (o : option string) : value :=
  match o with
  | Some s => JStr s
  | None => JUndefined
  end.

Fixpoint lookup (k : string) (fields : list (string * value)) : value :=
  match fields with
  | [] => JUndefined
  | (k', v) :: rest => if (k' =? k)%string then v else lookup k rest
  end.

(** The [TypeError] of reading property [k] of [undefined] or [null]
    ([base] says which), with the message V8 gives it. *)
Definition type_error (base k : string) : value :=
  JObj [("name", JStr "TypeError");
        ("message",
         JStr ("Cannot read properties of " ++ base ++ " (reading '" ++ k ++ "')")%string)].

(** [v.k] for the keys this program reads ([body], [message]), none of
    which is a property of a boxed string, number or boolean. *)
Definition get (v : value) (k : string) : completion value :=
  match v with
  | JUndefined => Throw (type_error "undefined" k)
  | JNull => Throw (type_error "null" k)
  | JObj fields => Normal (lookup k fields)
  | JBool _ | JNum _ | JStr _ => Normal JUndefined
  end.

(** [typeof v === 'string'] *)
Definition is_string (v : value) : bool :=
  match v with
  | JStr _ => true
  | _ => false
  end.

(** [String.prototype.toLowerCase].  The engine computes it from the Unicode
    case tables, which are no part of this repository: the components are
    modelled over any such function, which they take here as [toLowerCase],
    and of which they use that the lower case of the empty string is the
    empty string. *)
Class StringPrototype : Type := {
  toLowerCase : string -> string;
  toLowerCase_empty : toLowerCase "" = ""
}.

(** The lower case of one character of a string encoded in UTF-8 in which
    every character outside ASCII is its own lower case: the letters A to Z
    are lowered, and every other byte is kept. *)
Definition lower_char (c : ascii) : ascii :=
  let n := nat_of_ascii c in
  if (Nat.leb 65 n && Nat.leb n 90)%bool then ascii_of_nat (n + 32) else c.

Fixpoint lower_ascii (s : string) : string :=
  match s with
  | EmptyString => EmptyString
  | String c rest => String (lower_char c) (lower_ascii rest)
  end.

(** [toLowerCase] as the engine computes it on the strings of the examples,
    none of which has an upper-case character outside ASCII. *)
Definition ascii_strings : StringPrototype :=
  {| toLowerCase := lower_ascii; toLowerCase_empty := eq_refl |}.

(** [s.includes(sub)]: [sub] occurs in [s] as a contiguous substring. *)
Fixpoint includes (s sub : string) : bool :=
  String.prefix sub s ||
  match s with
  | EmptyString => false
  | String _ rest => includes rest sub
  end.

(** [Array.prototype.slice(start, end)] for integer arguments: a negative
    index counts from the end, and both ends are clamped to the array. *)
Definition slice {A} (l : list A) (start stop : Z) : list A :=
  let len := Z.of_nat (List.length l) in
  let from := if start <? 0 then Z.max (len + start) 0 else Z.min start len in
  let to := if stop <? 0 then Z.max (len + stop) 0 else Z.min stop len in
  firstn (Z.to_nat (Z.max (to - from) 0)) (skipn (Z.to_nat from) l).

(** [Math.ceil(a / b)] for an integer [a] and a positive integer [b]. *)
Definition ceil_div (a b : Z) : Z := - ((- a) / b).

(** [getErrorMessage(error)], the same text in both components. *)
Definition getErrorMessage (error : value) : completion value :=
  if negb (truthy error) then Normal (JStr "Unknown error occurred") else
  cbind (get error "body") (fun body =>
  cbind (if truthy body then get body "message" else Normal body) (fun guard =>
  if truthy guard then
    cbind (get error "body") (fun body' => get body' "message")
  else
  cbind (get error "message") (fun message =>
  if truthy message then get error "message" else
  if is_string error then Normal error else
  Normal (JStr "An error occurred. Please contact your administrator.")))).

(** A property read that yields [undefined] where [get] would throw. *)
Definition field (v : value) (k : string) : value :=
  match v with
  | JObj fields => lookup k fields
  | _ => JUndefined
  end.

(** The order of preference of [getErrorMessage], as a table. *)
Definition preferred_message (error : value) : value :=
  if negb (truthy error) then JStr "Unknown error occurred"
  else if truthy (field (field error "body") "message") then field (field error "body") "message"
  else if truthy (field error "message") then field error "message"
  else if is_string error then error
  else JStr "An error occurred. Please contact your administrator.".

(** The two message fields [getErrorMessage] can return hold strings
    whenever they hold something truthy. *)
Definition message_fields_are_strings (error : value) : bool :=
  let of_body := field (field error "body") "message" in
  let own := field error "message" in
  (negb (truthy of_body) || is_string of_body) && (negb (truthy own) || is_string own).

End Js.

(* ===================================================================== *)
(** ** Methods as computations                                            *)
(* ===================================================================== *)

Module Method.

(** A method of a component with fields [S] and platform effects [E]: from
    the fields at the call, the completion of the body, the fields after
    it, and the effects in the order they happened. *)
Definition M (S E A : Type) : Type := S -> Js.completion A * S * list E.

(** What a remote call settles to. *)
Inductive Outcome (A : Type) : Type :=
| Resolved (a : A)
| Rejected (e : Js.value).
Arguments Resolved {A} a.
Arguments Rejected {A} e.

Section Monad.
Context {S E : Type}.

Definition ret {A} (a : A) : M S E A := fun s => (Js.Normal a, s, []).

Definition throw {A} (e : Js.value) : M S E A := fun s => (Js.Throw e, s, []).

Definition bind {A B} (m : M S E A) (k : A -> M S E B) : M S E B :=
  fun s =>
    match m s with
    | (Js.Normal a, s1, log1) =>
        match k a s1 with
        | (c, s2, log2) => (c, s2, log1 ++ log2)
        end
    | (Js.Throw e, s1, log1) => (Js.Throw e, s1, log1)
    end.

(** [this.f] *)
Definition reads {A} (f : S -> A) : M S E A := fun s => (Js.Normal (f s), s, []).

(** [this.f = v], with [upd] the field's update. *)
Definition assign (upd : S -> S) : M S E unit := fun s => (Js.Normal tt, upd s, []).

Definition emit (e : E) : M S E unit := fun s => (Js.Normal tt, s, [e]).

(** A pure expression that can throw. *)
Definition lift {A} (c : Js.completion A) : M S E A := fun s => (c, s, []).

(** [await call]: the call is made, and the method resumes with what it
    settled to. *)
Definition await {A} (call : E) (o : Outcome A) : M S E A :=
  bind (emit call) (fun _ =>
    match o with
    | Resolved a => ret a
    | Rejected e => throw e
    end).

(** [try { body } catch (error) { handler error }] *)
Definition try_catch {A} (body : M S E A) (handler : Js.value -> M S E A) : M S E A :=
  fun s =>
    match body s with
    | (Js.Normal a, s1, log1) => (Js.Normal a, s1, log1)
    | (Js.Throw e, s1, log1) =>
        match handler e s1 with
        | (c, s2, log2) => (c, s2, log1 ++ log2)
        end
    end.

(** [try { body } finally { final }] *)
Definition try_finally {A} (body : M S E A) (final : M S E unit) : M S E A :=
  fun s =>
    match body s with
    | (c, s1, log1) =>
        match final s1 with
        | (Js.Normal _, s2, log2) => (c, s2, log1 ++ log2)
        | (Js.Throw e, s2, log2) => (Js.Throw e, s2, log1 ++ log2)
        end
    end.

(** The fields and the effects a method leaves behind. *)
Definition fields_after {A} (m : M S E A) (s : S) : S := snd (fst (m s)).
Definition effects_of {A} (m : M S E A) (s : S) : list E := snd (m s).
Definition completion_of {A} (m : M S E A) (s : S) : Js.completion A := fst (fst (m s)).

(** Every run of [m] takes the fields to fields related by [R]. *)
Definition relates {A} (R : S -> S -> Prop) (m : M S E A) : Prop :=
  forall s, R s (fields_after m s).

(** A flag that is set before is set after. *)
Definition stays (flag : S -> bool) (s s' : S) : Prop := flag s = true -> flag s' = true.

(** A field, or any reading of the fields, is the same before and after. *)
Definition unchanged {X} (f : S -> X) (s s' : S) : Prop := f s' = f s.

(** A property of the fields that holds before holds after. *)
Definition keeps (I : S -> Prop) (s s' : S) : Prop := I s -> I s'.

(** [m] completes normally from every state: no exception leaves it. *)
Definition settles {A} (m : M S E A) : Prop :=
  forall s, exists a, completion_of m s = Js.Normal a.

(** Every effect of [m], from every state, satisfies [P]. *)
Definition emits {A} (P : E -> Prop) (m : M S E A) : Prop :=
  forall s, Forall P (effects_of m s).
End Monad.

Declare Scope method_scope.
Delimit Scope method_scope with method.
Notation "x <- m ;; k" := (bind m (fun x => k))
  (at level 61, m at next level, right associativity) : method_scope.
Notation "m ;; k" := (bind m (fun _ => k))
  (at level 61, right associativity) : method_scope.

End Method.

(* ===================================================================== *)
(** ** What the two components share                                      *)
(* ===================================================================== *)

(** The [{success, message, recordId}] object of the Apex controllers. *)
Module Apex.
Record Result : Type := {
  success : bool;
  message : option string;
  recordId : option string
}.
End Apex.

(** The payload of [ProductAddedMessageChannel__c]. *)
Module Channel.
Record Message : Type := {
  productId : option string;
  orderItemId : option string;
  orderId : option string
}.
End Channel.

(** [a === b] on string-valued fields that may be missing. *)
Definition strict_eq (a b : option string) : bool :=
  match a, b with
  | Some x, Some y => (x =? y)%string
  | None, None => true
  | _, _ => false
  end.

(** The [mode] of a [ShowToastEvent], from its variant. *)
Definition toast_mode (variant : string) : string :=
  if (variant =? "error")%string then "sticky" else "dismissable".

(* ===================================================================== *)
(** ** availableProducts.js: the Product List View                        *)
(* ===================================================================== *)

Module AvailableProducts.
Import Method.
Local Open Scope method_scope.

Section Component.
Context {strings : Js.StringPrototype}.

(** A row of the catalog: the fields the component reads or writes, and
    under [others] the ones it passes through ([listPrice], [source], ...). *)
Record ProductRow : Type := {
  productId : option string;
  productCode : option string;
  productName : option string;
  category : option string;
  brand : option string;
  isExternal : bool;
  sourceIcon : option string;
  sourceBadgeClass : option string;
  disableAdd : option bool;
  isAddedToOrder : option bool;
  statusLabel : option string;
  statusClass : option string;
  rowClass : option string;
  others : list (string * Js.value)
}.

(** The fields of the component. *)
Record State : Type := {
  recordId : option string;
  products : list ProductRow;
  filteredProducts : list ProductRow;
  searchTerm : string;
  isLoading : bool;
  error : Js.value;
  includeExternal : bool;
  sfCount : Z;
  apiCount : Z;
  totalCount : Z;
  showStats : bool;
  pageSize : Z;
  currentPage : Z;
  isActivated : bool
}.

Definition set_products (v : list ProductRow) (s : State) : State :=
  {| recordId := recordId s; products := v; filteredProducts := filteredProducts s;
     searchTerm := searchTerm s; isLoading := isLoading s; error := error s;
     includeExternal := includeExternal s; sfCount := sfCount s; apiCount := apiCount s;
     totalCount := totalCount s; showStats := showStats s; pageSize := pageSize s;
     currentPage := currentPage s; isActivated := isActivated s |}.

Definition set_filteredProducts (v : list ProductRow) (s : State) : State :=
  {| recordId := recordId s; products := products s; filteredProducts := v;
     searchTerm := searchTerm s; isLoading := isLoading s; error := error s;
     includeExternal := includeExternal s; sfCount := sfCount s; apiCount := apiCount s;
     totalCount := totalCount s; showStats := showStats s; pageSize := pageSize s;
     currentPage := currentPage s; isActivated := isActivated s |}.

Definition set_searchTerm (v : string) (s : State) : State :=
  {| recordId := recordId s; products := products s;
     filteredProducts := filteredProducts s; searchTerm := v; isLoading := isLoading s;
     error := error s; includeExternal := includeExternal s; sfCount := sfCount s;
     apiCount := apiCount s; totalCount := totalCount s; showStats := showStats s;
     pageSize := pageSize s; currentPage := currentPage s; isActivated := isActivated s |}.

Definition set_isLoading (v : bool) (s : State) : State :=
  {| recordId := recordId s; products := products s;
     filteredProducts := filteredProducts s; searchTerm := searchTerm s; isLoading := v;
     error := error s; includeExternal := includeExternal s; sfCount := sfCount s;
     apiCount := apiCount s; totalCount := totalCount s; showStats := showStats s;
     pageSize := pageSize s; currentPage := currentPage s; isActivated := isActivated s |}.

Definition set_error (v : Js.value) (s : State) : State :=
  {| recordId := recordId s; products := products s;
     filteredProducts := filteredProducts s; searchTerm := searchTerm s;
     isLoading := isLoading s; error := v; includeExternal := includeExternal s;
     sfCount := sfCount s; apiCount := apiCount s; totalCount := totalCount s;
     showStats := showStats s; pageSize := pageSize s; currentPage := currentPage s;
     isActivated := isActivated s |}.

Definition set_includeExternal (v : bool) (s : State) : State :=
  {| recordId := recordId s; products := products s;
     filteredProducts := filteredProducts s; searchTerm := searchTerm s;
     isLoading := isLoading s; error := error s; includeExternal := v;
     sfCount := sfCount s; apiCount := apiCount s; totalCount := totalCount s;
     showStats := showStats s; pageSize := pageSize s; currentPage := currentPage s;
     isActivated := isActivated s |}.

Definition set_sfCount (v : Z) (s : State) : State :=
  {| recordId := recordId s; products := products s;
     filteredProducts := filteredProducts s; searchTerm := searchTerm s;
     isLoading := isLoading s; error := error s; includeExternal := includeExternal s;
     sfCount := v; apiCount := apiCount s; totalCount := totalCount s;
     showStats := showStats s; pageSize := pageSize s; currentPage := currentPage s;
     isActivated := isActivated s |}.

Definition set_apiCount (v : Z) (s : State) : State :=
  {| recordId := recordId s; products := products s;
     filteredProducts := filteredProducts s; searchTerm := searchTerm s;
     isLoading := isLoading s; error := error s; includeExternal := includeExternal s;
     sfCount := sfCount s; apiCount := v; totalCount := totalCount s;
     showStats := showStats s; pageSize := pageSize s; currentPage := currentPage s;
     isActivated := isActivated s |}.

Definition set_totalCount (v : Z) (s : State) : State :=
  {| recordId := recordId s; products := products s;
     filteredProducts := filteredProducts s; searchTerm := searchTerm s;
     isLoading := isLoading s; error := error s; includeExternal := includeExternal s;
     sfCount := sfCount s; apiCount := apiCount s; totalCount := v;
     showStats := showStats s; pageSize := pageSize s; currentPage := currentPage s;
     isActivated := isActivated s |}.

Definition set_showStats (v : bool) (s : State) : State :=
  {| recordId := recordId s; products := products s;
     filteredProducts := filteredProducts s; searchTerm := searchTerm s;
     isLoading := isLoading s; error := error s; includeExternal := includeExternal s;
     sfCount := sfCount s; apiCount := apiCount s; totalCount := totalCount s;
     showStats := v; pageSize := pageSize s; currentPage := currentPage s;
     isActivated := isActivated s |}.

Definition set_currentPage (v : Z) (s : State) : State :=
  {| recordId := recordId s; products := products s;
     filteredProducts := filteredProducts s; searchTerm := searchTerm s;
     isLoading := isLoading s; error := error s; includeExternal := includeExternal s;
     sfCount := sfCount s; apiCount := apiCount s; totalCount := totalCount s;
     showStats := showStats s; pageSize := pageSize s; currentPage := v;
     isActivated := isActivated s |}.

Definition set_isActivated (v : bool) (s : State) : State :=
  {| recordId := recordId s; products := products s;
     filteredProducts := filteredProducts s; searchTerm := searchTerm s;
     isLoading := isLoading s; error := error s; includeExternal := includeExternal s;
     sfCount := sfCount s; apiCount := apiCount s; totalCount := totalCount s;
     showStats := showStats s; pageSize := pageSize s; currentPage := currentPage s;
     isActivated := v |}.

(** The component as constructed, for the order [rid]. *)
Definition initial (rid : option string) : State :=
  {| recordId := rid; products := []; filteredProducts := []; searchTerm := "";
     isLoading := false; error := Js.JUndefined; includeExternal := true;
     sfCount := 0; apiCount := 0; totalCount := 0; showStats := false;
     pageSize := 10; currentPage := 1; isActivated := false |}.

Inductive Call : Type :=
| GetCombinedProducts (orderId : option string) (includeExternal : bool)
| AddProductToOrder (orderId productId : option string)
| AddExternalProductToOrder (orderId : option string) (externalProduct : ProductRow)
| IsOrderActivated (orderId : option string).

(** Work handed to the event loop. *)
Inductive Task : Type :=
| ShowStats
| RefreshCurrentRecordView.

Inductive Effect : Type :=
| Toast (title : string) (message : Js.value) (variant mode : string)
| Remote (call : Call)
| Publish (detail : Channel.Message)
| Microtask (t : Task)
| SetTimeout (t : Task) (ms : Z)
| Navigate (recordId : option string)
| ConsoleError (label : string) (e : Js.value).

Definition Method (A : Type) : Type := M State Effect A.

(** [{...p, disableAdd: v}] *)
Definition with_disableAdd (v : bool) (p : ProductRow) : ProductRow :=
  {| productId := productId p; productCode := productCode p; productName := productName p;
     category := category p; brand := brand p; isExternal := isExternal p;
     sourceIcon := sourceIcon p; sourceBadgeClass := sourceBadgeClass p;
     disableAdd := Some v;
     isAddedToOrder := isAddedToOrder p; statusLabel := statusLabel p;
     statusClass := statusClass p; rowClass := rowClass p; others := others p |}.

(** The object literal of [transformProductData]. *)
Definition transformed (activated : bool) (product : ProductRow) : ProductRow :=
  {| productId := productId product; productCode := productCode product;
     productName := productName product; category := category product;
     brand := brand product; isExternal := isExternal product;
     sourceIcon := Some (if isExternal product then "utility:world" else "utility:salesforce1");
     sourceBadgeClass := Some (if isExternal product
                               then "slds-badge slds-theme_warning"
                               else "slds-badge slds-theme_success");
     disableAdd := Some activated;
     isAddedToOrder := isAddedToOrder product; statusLabel := statusLabel product;
     statusClass := statusClass product; rowClass := rowClass product;
     others := others product |}.

(** The object literal of [markProductAsAdded]. *)
Definition added (p : ProductRow) : ProductRow :=
  {| productId := productId p; productCode := productCode p; productName := productName p;
     category := category p; brand := brand p; isExternal := isExternal p;
     sourceIcon := sourceIcon p; sourceBadgeClass := sourceBadgeClass p;
     disableAdd := Some true;
     isAddedToOrder := Some true; statusLabel := Some "✓ Added";
     statusClass := Some "slds-text-color_success";
     rowClass := Some "slds-hint-parent slds-is-selected"; others := others p |}.

Definition showToast (title : string) (message : Js.value) (variant : string) : Method unit :=
  emit (Toast title message variant (toast_mode variant)).

Definition getErrorMessage (e : Js.value) : Method Js.value := lift (Js.getErrorMessage e).

Definition count {A} (f : A -> bool) (l : list A) : Z := Z.of_nat (List.length (filter f l)).

(** [data.map(product => ({...}))]; [data] may be [null]. *)
Definition transformProductData (data : option (list ProductRow)) : Method (list ProductRow) :=
  match data with
  | None => throw (Js.type_error "null" "map")
  | Some rows =>
      activated <- reads isActivated ;;
      ret (map (transformed activated) rows)
  end.

Definition checkActivation (o : Outcome bool) : Method unit :=
  rid <- reads recordId ;;
  if negb (Js.truthy_str rid) then ret tt else
  try_catch
    (activated <- await (Remote (IsOrderActivated rid)) o ;;
     assign (set_isActivated activated) ;;
     ps <- reads products ;;
     if negb (Z.of_nat (List.length ps) =? 0) then
       now <- reads isActivated ;;
       assign (set_products (map (with_disableAdd now) ps)) ;;
       fs <- reads filteredProducts ;;
       assign (set_filteredProducts (map (with_disableAdd now) fs))
     else ret tt)
    (fun e => emit (ConsoleError "Error checking activation:" e)).

(** One field of the search: [f && f.toLowerCase().includes(term)]. *)
Definition field_matches (f : option string) (term : string) : bool :=
  match f with
  | Some v => negb (v =? "")%string && Js.includes (Js.toLowerCase v) term
  | None => false
  end.

(** The predicate of the filter in [applyFilters]. *)
Definition row_matches (term : string) (product : ProductRow) : bool :=
  field_matches (productName product) term
  || field_matches (productCode product) term
  || field_matches (category product) term
  || field_matches (brand product) term.

Definition applyFilters : Method unit :=
  ps <- reads products ;;
  term <- reads searchTerm ;;
  let filtered := if negb (term =? "")%string then filter (row_matches term) ps else ps in
  assign (set_filteredProducts filtered) ;;
  assign (set_currentPage 1).

Definition loadProducts (o : Outcome (option (list ProductRow))) : Method unit :=
  assign (set_isLoading true) ;;
  assign (set_error Js.JUndefined) ;;
  assign (set_currentPage 1) ;;
  try_finally
    (try_catch
       (rid <- reads recordId ;;
        inc <- reads includeExternal ;;
        data <- await (Remote (GetCombinedProducts rid inc)) o ;;
        rows <- transformProductData data ;;
        assign (set_products rows) ;;
        ps <- reads products ;;
        assign (set_sfCount (count (fun p => negb (isExternal p)) ps)) ;;
        assign (set_apiCount (count isExternal ps)) ;;
        assign (set_totalCount (Z.of_nat (List.length ps))) ;;
        assign (set_showStats false) ;;
        emit (Microtask ShowStats) ;;
        applyFilters)
       (fun e =>
          msg <- getErrorMessage e ;;
          assign (set_error msg) ;;
          assign (set_products []) ;;
          assign (set_filteredProducts []) ;;
          msg' <- reads error ;;
          showToast "Error loading products" msg' "error"))
    (assign (set_isLoading false)).

(** [loadProducts] in its two turns of the event loop: up to the [await],
    where the call is made and the method is suspended, and from the
    settlement of the call on. *)
Definition loadProducts_begin : Method unit :=
  assign (set_isLoading true) ;;
  assign (set_error Js.JUndefined) ;;
  assign (set_currentPage 1) ;;
  rid <- reads recordId ;;
  inc <- reads includeExternal ;;
  emit (Remote (GetCombinedProducts rid inc)).

Definition loadProducts_settled (o : Outcome (option (list ProductRow))) : Method unit :=
  try_finally
    (try_catch
       (data <- match o with
                | Resolved a => ret a
                | Rejected e => throw e
                end ;;
        rows <- transformProductData data ;;
        assign (set_products rows) ;;
        ps <- reads products ;;
        assign (set_sfCount (count (fun p => negb (isExternal p)) ps)) ;;
        assign (set_apiCount (count isExternal ps)) ;;
        assign (set_totalCount (Z.of_nat (List.length ps))) ;;
        assign (set_showStats false) ;;
        emit (Microtask ShowStats) ;;
        applyFilters)
       (fun e =>
          msg <- getErrorMessage e ;;
          assign (set_error msg) ;;
          assign (set_products []) ;;
          assign (set_filteredProducts []) ;;
          msg' <- reads error ;;
          showToast "Error loading products" msg' "error"))
    (assign (set_isLoading false)).

Definition refreshCurrentRecordView : Method unit :=
  rid <- reads recordId ;;
  emit (Navigate rid).

Definition handleSearch (value : string) : Method unit :=
  assign (set_searchTerm (Js.toLowerCase value)) ;;
  applyFilters.

Definition handleToggleExternal (checked : bool)
    (o : Outcome (option (list ProductRow))) : Method unit :=
  assign (set_includeExternal checked) ;;
  loadProducts o.

Definition markProductAsAdded (pid : option string) : Method unit :=
  let mark := fun p => if strict_eq (productId p) pid then added p else p in
  ps <- reads products ;;
  assign (set_products (map mark ps)) ;;
  fs <- reads filteredProducts ;;
  assign (set_filteredProducts (map mark fs)) ;;
  ps' <- reads products ;;
  assign (set_sfCount (count (fun p => negb (isExternal p)) ps')) ;;
  assign (set_apiCount (count isExternal ps')) ;;
  assign (set_totalCount (Z.of_nat (List.length ps'))) ;;
  assign (set_showStats false) ;;
  emit (Microtask ShowStats).

Definition dispatchProductAddedEvent (pid orderItemId : option string) : Method unit :=
  rid <- reads recordId ;;
  emit (Publish {| Channel.productId := pid;
                   Channel.orderItemId := orderItemId;
                   Channel.orderId := rid |}).

(** [result.f] on a result that may be [null]. *)
Definition of_result {A} (result : option Apex.Result) (k : string)
    (f : Apex.Result -> A) : Method A :=
  match result with
  | Some r => ret (f r)
  | None => throw (Js.type_error "null" k)
  end.

Definition handleAddProduct (pid : option string)
    (o : Outcome (option Apex.Result))
    (reload : Outcome (option (list ProductRow))) : Method unit :=
  rid <- reads recordId ;;
  if negb (Js.truthy_str pid) || negb (Js.truthy_str rid) then
    showToast "Error" (Js.JStr "Missing product or order information") "error"
  else
  assign (set_isLoading true) ;;
  try_finally
    (try_catch
       (rid <- reads recordId ;;
        result <- await (Remote (AddProductToOrder rid pid)) o ;;
        ok <- of_result result "success" Apex.success ;;
        if ok then
          loadProducts reload ;;
          markProductAsAdded pid ;;
          item <- of_result result "recordId" Apex.recordId ;;
          dispatchProductAddedEvent pid item ;;
          msg <- of_result result "message" Apex.message ;;
          showToast "Success" (Js.of_str msg) "success" ;;
          emit (SetTimeout RefreshCurrentRecordView 500)
        else
          msg <- of_result result "message" Apex.message ;;
          showToast "Error" (Js.of_str msg) "error")
       (fun e =>
          msg <- getErrorMessage e ;;
          showToast "Error adding product" msg "error"))
    (assign (set_isLoading false)).

Definition handleAddExternalProduct (product : option ProductRow)
    (o : Outcome (option Apex.Result))
    (reload : Outcome (option (list ProductRow))) : Method unit :=
  rid <- reads recordId ;;
  match product with
  | None => showToast "Error" (Js.JStr "Missing order or product information") "error"
  | Some row =>
  if negb (Js.truthy_str rid) then
    showToast "Error" (Js.JStr "Missing order or product information") "error"
  else
  assign (set_isLoading true) ;;
  try_finally
    (try_catch
       (rid <- reads recordId ;;
        result <- await (Remote (AddExternalProductToOrder rid row)) o ;;
        match result with
        | Some r =>
            if Apex.success r then
              markProductAsAdded (Js.or_str (productId row) (productCode row)) ;;
              loadProducts reload ;;
              dispatchProductAddedEvent (Js.or_str (productId row) (productCode row))
                                        (Apex.recordId r) ;;
              showToast "Success" (Js.of_str (Apex.message r)) "success" ;;
              emit (SetTimeout RefreshCurrentRecordView 500)
            else
              showToast "Error" (Js.of_str (Apex.message r)) "error"
        | None =>
            showToast "Error" (Js.JStr "Failed to add external product") "error"
        end)
       (fun e =>
          msg <- getErrorMessage e ;;
          showToast "Error adding external product" msg "error"))
    (assign (set_isLoading false))
  end.

Definition handleRowAction (actionName : string) (row : ProductRow)
    (o : Outcome (option Apex.Result))
    (reload : Outcome (option (list ProductRow))) : Method unit :=
  if (actionName =? "add_product")%string then
    if isExternal row then handleAddExternalProduct (Some row) o reload
    else handleAddProduct (productId row) o reload
  else ret tt.

(** The getters. *)
Definition totalPages (s : State) : Z :=
  if negb (Z.of_nat (List.length (filteredProducts s)) =? 0)
  then Js.ceil_div (Z.of_nat (List.length (filteredProducts s))) (pageSize s)
  else 1.

Definition pagedProducts (s : State) : list ProductRow :=
  let start := (currentPage s - 1) * pageSize s in
  let stop := start + pageSize s in
  Js.slice (filteredProducts s) start stop.

Definition isFirstPage (s : State) : bool := currentPage s =? 1.

Definition isLastPage (s : State) : bool := totalPages s <=? currentPage s.

Definition hasProducts (s : State) : bool := 0 <? Z.of_nat (List.length (filteredProducts s)).

Definition totalRecords (s : State) : Z := Z.of_nat (List.length (filteredProducts s)).

Definition startRecord (s : State) : Z :=
  if totalRecords s =? 0 then 0 else (currentPage s - 1) * pageSize s + 1.

Definition endRecord (s : State) : Z :=
  if totalRecords s =? 0 then 0 else
  let stop := currentPage s * pageSize s in
  if totalRecords s <? stop then totalRecords s else stop.

Definition handleNextPage : Method unit :=
  last <- reads isLastPage ;;
  if negb last then
    page <- reads currentPage ;;
    assign (set_currentPage (page + 1))
  else ret tt.

Definition handlePrevPage : Method unit :=
  first <- reads isFirstPage ;;
  if negb first then
    page <- reads currentPage ;;
    assign (set_currentPage (page - 1))
  else ret tt.

(** A task of the event loop, when it runs. *)
Definition run_task (t : Task) : Method unit :=
  match t with
  | ShowStats => assign (set_showStats true)
  | RefreshCurrentRecordView => refreshCurrentRecordView
  end.

(** The operations of the view: what a user, the platform or the event
    loop can make the component do. [connectedCallback] starts
    [loadProducts] and [checkActivation], which complete in either order. *)
Inductive Op : Type :=
| LoadProducts (o : Outcome (option (list ProductRow)))
| CheckActivation (o : Outcome bool)
| Search (value : string)
| ToggleExternal (checked : bool) (o : Outcome (option (list ProductRow)))
| RowAction (actionName : string) (row : ProductRow)
    (o : Outcome (option Apex.Result)) (reload : Outcome (option (list ProductRow)))
| AddProduct (pid : option string)
    (o : Outcome (option Apex.Result)) (reload : Outcome (option (list ProductRow)))
| AddExternalProduct (product : option ProductRow)
    (o : Outcome (option Apex.Result)) (reload : Outcome (option (list ProductRow)))
| NextPage
| PrevPage
| RunTask (t : Task).

Definition perform (op : Op) : Method unit :=
  match op with
  | LoadProducts o => loadProducts o
  | CheckActivation o => checkActivation o
  | Search value => handleSearch value
  | ToggleExternal checked o => handleToggleExternal checked o
  | RowAction actionName row o reload => handleRowAction actionName row o reload
  | AddProduct pid o reload => handleAddProduct pid o reload
  | AddExternalProduct product o reload => handleAddExternalProduct product o reload
  | NextPage => handleNextPage
  | PrevPage => handlePrevPage
  | RunTask t => run_task t
  end.

Definition step (s : State) (op : Op) : State := fields_after (perform op) s.

(** The component after a sequence of operations. *)
Definition run (ops : list Op) (s : State) : State := fold_left step ops s.

(** A row matches a search term when the lower case of the term is empty,
    or the lower case of one of its name, code, category and brand
    contains it. *)
Definition matches_term (term : string) (product : ProductRow) : Prop :=
  Js.toLowerCase term = ""
  \/ exists text,
       In (Some text) [productName product; productCode product;
                       category product; brand product]
       /\ Js.includes (Js.toLowerCase text) (Js.toLowerCase term) = true.

(** The current page is one of the pages there are. *)
Definition page_in_range (s : State) : Prop :=
  0 < pageSize s /\ 1 <= currentPage s <= totalPages s.

(** What an operation may do to the paging: the page size stays, and
    either the view is back on page 1, or it is on the page it was on and
    shows as many filtered rows as before. *)
Definition paging (s s' : State) : Prop :=
  pageSize s' = pageSize s
  /\ (currentPage s' = 1
      \/ (currentPage s' = currentPage s
          /\ List.length (filteredProducts s') = List.length (filteredProducts s))).

(** The view showing page [p]. *)
Definition at_page (p : Z) (s : State) : State := set_currentPage p s.


(** An activation check that comes back with [false]. *)
Definition answers_false (op : Op) : bool :=
  match op with
  | CheckActivation (Resolved false) => true
  | _ => false
  end.

(** The rows [applyFilters] keeps of [rows] under the term [term]. *)
Definition shown (term : string) (rows : list ProductRow) : list ProductRow :=
  if negb (term =? "")%string then filter (row_matches term) rows else rows.

(** The error the [catch] of [loadProducts] sees, when the load fails: the
    rejection, or the [TypeError] of mapping a [null] catalog. *)
Definition load_failure (o : Outcome (option (list ProductRow))) : option Js.value :=
  match o with
  | Rejected e => Some e
  | Resolved None => Some (Js.type_error "null" "map")
  | Resolved (Some _) => None
  end.

(** The published messages in a log of effects. *)
Definition published (log : list Effect) : list Channel.Message :=
  flat_map (fun e => match e with Publish detail => [detail] | _ => [] end) log.

(** The getters [sfProductCount] and [externalProductCount]. *)
Definition sfProductCount (s : State) : Z := count (fun p => negb (isExternal p)) (products s).

Definition externalProductCount (s : State) : Z := count isExternal (products s).

(** On an activated order every row, of the catalog and of the filtered
    rows, has its Add button disabled; and an empty catalog shows no
    filtered rows. *)
Definition add_disabled_when_activated (s : State) : Prop :=
  (products s = [] -> filteredProducts s = [])
  /\ (isActivated s = true ->
      forall row, In row (products s ++ filteredProducts s) -> disableAdd row = Some true).

(** With a catalog loaded, the three counts of the stats banner are the
    counts of its rows. *)
Definition stats_count_catalog (s : State) : Prop :=
  products s <> [] ->
  sfCount s = sfProductCount s
  /\ apiCount s = externalProductCount s
  /\ totalCount s = Z.of_nat (List.length (products s)).

End Component.

End AvailableProducts.

(* ===================================================================== *)
(** ** orderProducts.js: the Order Line View                              *)
(* ===================================================================== *)

Module OrderProducts.
Import Method.
Local Open Scope method_scope.

(** A line of the order: the fields the component reads or writes, and
    under [others] the ones it passes through ([productName],
    [unitPrice], [quantity], [totalPrice], ...). *)
Record OrderLineRow : Type := {
  orderItemId : option string;
  removeDisabled : option bool;
  others : list (string * Js.value)
}.

(** What the wire adapter of [getOrderProducts] delivers. *)
Record WireResult : Type := {
  data : option (list OrderLineRow);
  wire_error : Js.value
}.

(** The fields of the component. *)
Record State : Type := {
  recordId : option string;
  orderItems : list OrderLineRow;
  isLoading : bool;
  isActivating : bool;
  isActivated : bool;
  error : Js.value;
  wiredOrderItemsResult : option WireResult;
  subscription : option unit
}.

Definition set_orderItems (v : list OrderLineRow) (s : State) : State :=
  {| recordId := recordId s; orderItems := v; isLoading := isLoading s;
     isActivating := isActivating s; isActivated := isActivated s; error := error s;
     wiredOrderItemsResult := wiredOrderItemsResult s; subscription := subscription s |}.

Definition set_isLoading (v : bool) (s : State) : State :=
  {| recordId := recordId s; orderItems := orderItems s; isLoading := v;
     isActivating := isActivating s; isActivated := isActivated s; error := error s;
     wiredOrderItemsResult := wiredOrderItemsResult s; subscription := subscription s |}.

Definition set_isActivating (v : bool) (s : State) : State :=
  {| recordId := recordId s; orderItems := orderItems s; isLoading := isLoading s;
     isActivating := v; isActivated := isActivated s; error := error s;
     wiredOrderItemsResult := wiredOrderItemsResult s; subscription := subscription s |}.

Definition set_isActivated (v : bool) (s : State) : State :=
  {| recordId := recordId s; orderItems := orderItems s; isLoading := isLoading s;
     isActivating := isActivating s; isActivated := v; error := error s;
     wiredOrderItemsResult := wiredOrderItemsResult s; subscription := subscription s |}.

Definition set_error (v : Js.value) (s : State) : State :=
  {| recordId := recordId s; orderItems := orderItems s; isLoading := isLoading s;
     isActivating := isActivating s; isActivated := isActivated s; error := v;
     wiredOrderItemsResult := wiredOrderItemsResult s; subscription := subscription s |}.

Definition set_wiredOrderItemsResult (v : option WireResult) (s : State) : State :=
  {| recordId := recordId s; orderItems := orderItems s; isLoading := isLoading s;
     isActivating := isActivating s; isActivated := isActivated s; error := error s;
     wiredOrderItemsResult := v; subscription := subscription s |}.

Definition set_subscription (v : option unit) (s : State) : State :=
  {| recordId := recordId s; orderItems := orderItems s; isLoading := isLoading s;
     isActivating := isActivating s; isActivated := isActivated s; error := error s;
     wiredOrderItemsResult := wiredOrderItemsResult s; subscription := v |}.

(** The component as constructed, for the order [rid]. *)
Definition initial (rid : option string) : State :=
  {| recordId := rid; orderItems := []; isLoading := false; isActivating := false;
     isActivated := false; error := Js.JUndefined; wiredOrderItemsResult := None;
     subscription := None |}.

Inductive Call : Type :=
| IsOrderActivated (orderId : option string)
| ActivateOrder (orderId : option string)
| RemoveOrderItem (orderItemId : option string)
| RefreshApex (wired : WireResult).

(** Work handed to the event loop. *)
Inductive Task : Type :=
| RefreshOrderProducts
| RefreshCurrentRecordView.

Inductive Effect : Type :=
| Toast (title : string) (message : Js.value) (variant mode : string)
| Remote (call : Call)
| SetTimeout (t : Task) (ms : Z)
| Navigate (recordId : option string)
| ReloadPage
| Subscribe
| Unsubscribe
| ConsoleError (label : string) (e : Js.value).

Definition Method (A : Type) : Type := M State Effect A.

Definition showToast (title : string) (message : Js.value) (variant : string) : Method unit :=
  emit (Toast title message variant (toast_mode variant)).

Definition getErrorMessage (e : Js.value) : Method Js.value := lift (Js.getErrorMessage e).

(** [{...item, removeDisabled: v}] *)
Definition with_removeDisabled (v : bool) (item : OrderLineRow) : OrderLineRow :=
  {| orderItemId := orderItemId item; removeDisabled := Some v; others := others item |}.

Definition decorateRows (rows : list OrderLineRow) : Method (list OrderLineRow) :=
  activated <- reads isActivated ;;
  ret (map (with_removeDisabled activated) rows).

Definition refreshCurrentRecordView : Method unit :=
  rid <- reads recordId ;;
  emit (Navigate rid).

Definition subscribeToMessageChannel : Method unit :=
  sub <- reads subscription ;;
  match sub with
  | Some _ => ret tt
  | None => emit Subscribe ;; assign (set_subscription (Some tt))
  end.

Definition disconnectedCallback : Method unit :=
  sub <- reads subscription ;;
  match sub with
  | Some _ => emit Unsubscribe ;; assign (set_subscription None)
  | None => ret tt
  end.

Definition handleProductAddedMessage (message : option Channel.Message) : Method unit :=
  rid <- reads recordId ;;
  match message with
  | Some m =>
      if strict_eq (Channel.orderId m) rid then
        emit (SetTimeout RefreshOrderProducts 0) ;;
        emit (SetTimeout RefreshCurrentRecordView 400)
      else ret tt
  | None => ret tt
  end.

Definition wiredOrderItems (result : WireResult) : Method unit :=
  assign (set_wiredOrderItemsResult (Some result)) ;;
  match data result with
  | Some rows =>
      decorated <- decorateRows rows ;;
      assign (set_orderItems decorated) ;;
      assign (set_error Js.JUndefined)
  | None =>
      if Js.truthy (wire_error result) then
        msg <- getErrorMessage (wire_error result) ;;
        assign (set_error msg) ;;
        assign (set_orderItems []) ;;
        msg' <- reads error ;;
        showToast "Error loading order products" msg' "error"
      else ret tt
  end.

(** [this.orderItems && this.orderItems.length], as a condition. *)
Definition has_rows (s : State) : bool := negb (Z.of_nat (List.length (orderItems s)) =? 0).

Definition checkOrderActivationStatus (o : Outcome bool) : Method unit :=
  rid <- reads recordId ;;
  if negb (Js.truthy_str rid) then ret tt else
  try_catch
    (activated <- await (Remote (IsOrderActivated rid)) o ;;
     assign (set_isActivated activated) ;;
     some <- reads has_rows ;;
     if some then
       rows <- reads orderItems ;;
       decorated <- decorateRows rows ;;
       assign (set_orderItems decorated)
     else ret tt)
    (fun e => emit (ConsoleError "Error checking activation status:" e)).

(** [refreshOrderProducts], up to the call of [refreshApex]. *)
Definition refreshOrderProducts : Method unit :=
  wired <- reads wiredOrderItemsResult ;;
  match wired with
  | Some w =>
      assign (set_isLoading true) ;;
      emit (Remote (RefreshApex w))
  | None => ret tt
  end.

(** The [.then(...).finally(...)] of [refreshOrderProducts], once the
    promise of [refreshApex] has settled. *)
Definition refreshOrderProducts_settled (o : Outcome unit) : Method unit :=
  try_finally
    (match o with
     | Resolved _ =>
         some <- reads has_rows ;;
         if some then
           rows <- reads orderItems ;;
           decorated <- decorateRows rows ;;
           assign (set_orderItems decorated)
         else ret tt
     | Rejected e => throw e
     end)
    (assign (set_isLoading false)).

(** The getters the methods use. *)
Definition hasOrderItems (s : State) : bool := 0 <? Z.of_nat (List.length (orderItems s)).

Definition orderItemsCount (s : State) : Z := Z.of_nat (List.length (orderItems s)).

Definition isActivateButtonDisabled (s : State) : bool :=
  isActivating s || isActivated s || negb (hasOrderItems s).

Definition activateButtonLabel (s : State) : string :=
  if isActivated s then "Order Activated"
  else if isActivating s then "Activating..."
  else "Activate Order".

Definition refreshPage : Method unit := emit ReloadPage.

(** [result.f] on a result that may be [null]. *)
Definition of_result {A} (result : option Apex.Result) (k : string)
    (f : Apex.Result -> A) : Method A :=
  match result with
  | Some r => ret (f r)
  | None => throw (Js.type_error "null" k)
  end.

Definition handleActivateOrder (o : Outcome (option Apex.Result)) : Method unit :=
  rid <- reads recordId ;;
  if negb (Js.truthy_str rid) then
    showToast "Error" (Js.JStr "Order ID is missing") "error"
  else
  activated <- reads isActivated ;;
  if activated then
    showToast "Warning" (Js.JStr "Order is already activated") "warning"
  else
  some <- reads hasOrderItems ;;
  if negb some then
    showToast "Error" (Js.JStr "Cannot activate order without products") "error"
  else
  assign (set_isActivating true) ;;
  try_finally
    (try_catch
       (rid <- reads recordId ;;
        result <- await (Remote (ActivateOrder rid)) o ;;
        ok <- of_result result "success" Apex.success ;;
        if ok then
          msg <- of_result result "message" Apex.message ;;
          showToast "Success" (Js.of_str msg) "success" ;;
          assign (set_isActivated true) ;;
          refreshPage
        else
          msg <- of_result result "message" Apex.message ;;
          showToast "Activation Failed" (Js.of_str msg) "error")
       (fun e =>
          msg <- getErrorMessage e ;;
          showToast "Error activating order" msg "error"))
    (assign (set_isActivating false)).

Definition handleRowAction (actionName : string) (row : OrderLineRow)
    (o : Outcome (option Apex.Result)) : Method unit :=
  if (actionName =? "remove")%string then
    activated <- reads isActivated ;;
    if activated then
      showToast "Warning" (Js.JStr "Cannot remove products from an activated order") "warning"
    else
    assign (set_isLoading true) ;;
    try_finally
      (try_catch
         (res <- await (Remote (RemoveOrderItem (orderItemId row))) o ;;
          match res with
          | Some r =>
              if Apex.success r then
                showToast "Success" (Js.of_str (Apex.message r)) "success" ;;
                refreshOrderProducts ;;
                refreshCurrentRecordView
              else
                showToast "Error" (Js.of_str (Apex.message r)) "error"
          | None => showToast "Error" (Js.JStr "Unable to remove product") "error"
          end)
         (fun e =>
            msg <- getErrorMessage e ;;
            showToast "Error removing product" msg "error"))
      (assign (set_isLoading false))
  else ret tt.

(** A task of the event loop, when it runs. *)
Definition run_task (t : Task) : Method unit :=
  match t with
  | RefreshOrderProducts => refreshOrderProducts
  | RefreshCurrentRecordView => refreshCurrentRecordView
  end.

(** The operations of the view. [connectedCallback] starts
    [checkOrderActivationStatus] and subscribes to the channel. *)
Inductive Op : Type :=
| CheckOrderActivationStatus (o : Outcome bool)
| SubscribeToMessageChannel
| Disconnected
| ProductAddedMessage (message : option Channel.Message)
| WiredOrderItems (result : WireResult)
| RefreshSettled (o : Outcome unit)
| ActivateOrderClicked (o : Outcome (option Apex.Result))
| RowAction (actionName : string) (row : OrderLineRow) (o : Outcome (option Apex.Result))
| RunTask (t : Task).

Definition perform (op : Op) : Method unit :=
  match op with
  | CheckOrderActivationStatus o => checkOrderActivationStatus o
  | SubscribeToMessageChannel => subscribeToMessageChannel
  | Disconnected => disconnectedCallback
  | ProductAddedMessage message => handleProductAddedMessage message
  | WiredOrderItems result => wiredOrderItems result
  | RefreshSettled o => refreshOrderProducts_settled o
  | ActivateOrderClicked o => handleActivateOrder o
  | RowAction actionName row o => handleRowAction actionName row o
  | RunTask t => run_task t
  end.

Definition step (s : State) (op : Op) : State := fields_after (perform op) s.

(** The component after a sequence of operations. *)
Definition run (ops : list Op) (s : State) : State := fold_left step ops s.

(** An activation check that comes back with [false]. *)
Definition answers_false (op : Op) : bool :=
  match op with
  | CheckOrderActivationStatus (Resolved false) => true
  | _ => false
  end.

(** The effects of a sequence of operations, in the order they happen. *)
Fixpoint trace (ops : list Op) (s : State) : list Effect :=
  match ops with
  | [] => []
  | op :: rest => effects_of (perform op) s ++ trace rest (step s op)
  end.

(** Subscriptions opened and not closed again in a log of effects. *)
Fixpoint open_subscriptions (log : list Effect) : Z :=
  match log with
  | [] => 0
  | Subscribe :: rest => open_subscriptions rest + 1
  | Unsubscribe :: rest => open_subscriptions rest - 1
  | _ :: rest => open_subscriptions rest
  end.

(** 1 when the view holds a subscription, 0 when it does not. *)
Definition held_subscriptions (s : State) : Z :=
  match subscription s with
  | Some _ => 1
  | None => 0
  end.

(** The remote calls in a log of effects. *)
Definition remote_calls (log : list Effect) : list Call :=
  flat_map (fun e => match e with Remote call => [call] | _ => [] end) log.

(** An effect that neither opens nor closes a subscription. *)
Definition leaves_subscription (e : Effect) : Prop :=
  match e with
  | Subscribe | Unsubscribe => False
  | _ => True
  end.

(** The remote call came back and reports success. *)
Definition accepted (o : Outcome (option Apex.Result)) : bool :=
  match o with
  | Resolved (Some r) => Apex.success r
  | _ => false
  end.

(** Every row carries the Remove flag the order's activation asks for. *)
Definition remove_follows_activation (s : State) : Prop :=
  forall row, In row (orderItems s) -> removeDisabled row = Some (isActivated s).

(** A click on Activate that the remote accepts. *)
Definition accepted_activation (op : Op) : bool :=
  match op with
  | ActivateOrderClicked (Resolved (Some r)) => Apex.success r
  | _ => false
  end.

(** The settlement of a refresh whose promise was rejected. *)
Definition rejected_refresh (op : Op) : bool :=
  match op with
  | RefreshSettled (Rejected _) => true
  | _ => false
  end.

End OrderProducts.

(* ===================================================================== *)
(** ** Sample data                                                        *)
(* ===================================================================== *)

Module Samples.
Import AvailableProducts.

(** A local product as [getCombinedProducts] delivers it. *)
Definition product (code name : string) : ProductRow :=
  {| productId := Some ("01t" ++ code)%string; productCode := Some code;
     productName := Some name; category := Some "Internet"; brand := Some "KPN";
     isExternal := false; sourceIcon := None; sourceBadgeClass := None;
     disableAdd := None; isAddedToOrder := None; statusLabel := None;
     statusClass := None; rowClass := None; others := [] |}.

(** The rows of a catalog of 25 products, as the view holds them. *)
Definition catalog : list ProductRow :=
  map (fun c => transformed false (product (String c "") ("Glasvezel " ++ String c "")%string))
      (list_ascii_of_string "ABCDEFGHIJKLMNOPQRSTUVWXY").

(** The view on order 801xx0001 with the catalog loaded and no search. *)
Definition loaded : State :=
  set_filteredProducts catalog (set_products catalog (initial (Some "801xx0001"))).

End Samples.

(* ===================================================================== *)
(** ** Relating the fields before and after a method                      *)
(* ===================================================================== *)

Section Frame.
Import Method.
Context {S E : Type} (R : S -> S -> Prop) `{!PreOrder R}.

Lemma relates_ret {A} (a : A) : relates (E := E) R (ret a).
Proof. intros s. apply PreOrder_Reflexive. Qed.

Lemma relates_throw {A} (e : Js.value) : relates (E := E) (A := A) R (throw e).
Proof. intros s. apply PreOrder_Reflexive. Qed.

Lemma relates_reads {A} (f : S -> A) : relates (E := E) R (reads f).
Proof. intros s. apply PreOrder_Reflexive. Qed.

Lemma relates_emit (e : E) : relates R (emit e).
Proof. intros s. apply PreOrder_Reflexive. Qed.

Lemma relates_lift {A} (c : Js.completion A) : relates (E := E) R (lift c).
Proof. intros s. apply PreOrder_Reflexive. Qed.

Lemma relates_assign (upd : S -> S) :
  (forall s, R s (upd s)) -> relates (E := E) R (assign upd).
Proof. intros H s. apply H. Qed.

Lemma relates_bind {A B} (m : M S E A) (k : A -> M S E B) :
  relates R m -> (forall a, relates R (k a)) -> relates R (bind m k).
Proof.
  intros Hm Hk s. specialize (Hm s).
  unfold fields_after, bind in *.
  destruct (m s) as [[[a | e] s1] log1]; simpl in *; [ | exact Hm ].
  specialize (Hk a s1). unfold fields_after in Hk.
  destruct (k a s1) as [[c s2] log2]; simpl in *.
  now transitivity s1.
Qed.

Lemma relates_await {A} (call : E) (o : Outcome A) : relates R (await call o).
Proof.
  apply relates_bind; [ apply relates_emit | ].
  intros _. destruct o; [ apply relates_ret | apply relates_throw ].
Qed.

Lemma relates_try_catch {A} (body : M S E A) (handler : Js.value -> M S E A) :
  relates R body -> (forall e, relates R (handler e)) -> relates R (try_catch body handler).
Proof.
  intros Hb Hh s. specialize (Hb s).
  unfold fields_after, try_catch in *.
  destruct (body s) as [[[a | e] s1] log1]; simpl in *; [ exact Hb | ].
  specialize (Hh e s1). unfold fields_after in Hh.
  destruct (handler e s1) as [[c s2] log2]; simpl in *.
  now transitivity s1.
Qed.

Lemma relates_try_finally {A} (body : M S E A) (final : M S E unit) :
  relates R body -> relates R final -> relates R (try_finally body final).
Proof.
  intros Hb Hf s. specialize (Hb s).
  unfold fields_after, try_finally in *.
  destruct (body s) as [[c s1] log1]; simpl in *.
  specialize (Hf s1). unfold fields_after in Hf.
  destruct (final s1) as [[[u | e] s2] log2]; simpl in *; now transitivity s1.
Qed.

End Frame.

(** Splits a method into its statements; [leaf] closes an assignment. *)
Ltac frame leaf :=
  repeat
    (cbv zeta;
     lazymatch goal with
     | |- Method.relates _ (Method.ret _) => refine (relates_ret _ _)
     | |- Method.relates _ (Method.throw _) => refine (relates_throw _ _)
     | |- Method.relates _ (Method.reads _) => refine (relates_reads _ _)
     | |- Method.relates _ (Method.emit _) => refine (relates_emit _ _)
     | |- Method.relates _ (Method.lift _) => refine (relates_lift _ _)
     | |- Method.relates _ (Method.await _ _) => refine (relates_await _ _ _)
     | |- Method.relates _ (Method.bind _ _) => refine (relates_bind _ _ _ _ _); [ | intro ]
     | |- Method.relates _ (Method.try_catch _ _) =>
         refine (relates_try_catch _ _ _ _ _); [ | intro ]
     | |- Method.relates _ (Method.try_finally _ _) => refine (relates_try_finally _ _ _ _ _)
     | |- Method.relates _ (Method.assign _) => refine (relates_assign _ _ _); intro; leaf
     | |- Method.relates _ (if ?b then _ else _) => destruct b
     | |- Method.relates _ (match ?x with _ => _ end) => destruct x
     end).

(* ===================================================================== *)
(** ** Error messages                                                     *)
(* ===================================================================== *)

Lemma get_truthy (v : Js.value) (k : string) :
  Js.truthy v = true -> Js.get v k = Js.Normal (Js.field v k).
Proof. destruct v; simpl; intros H; try reflexivity; discriminate H. Qed.

Lemma field_falsy (v : Js.value) (k : string) :
  Js.truthy v = false -> Js.truthy (Js.field v k) = false \/ exists fields, v = Js.JObj fields.
Proof. destruct v; simpl; intros H; try (left; reflexivity). discriminate H. Qed.

Lemma getErrorMessage_preferred (error : Js.value) :
  Js.getErrorMessage error = Js.Normal (Js.preferred_message error).
Proof.
  unfold Js.getErrorMessage, Js.preferred_message.
  destruct (Js.truthy error) eqn:Herr; simpl; [ | reflexivity ].
  rewrite !(get_truthy error) by exact Herr. simpl.
  destruct (Js.truthy (Js.field error "body")) eqn:Hbody.
  - rewrite (get_truthy _ "message" Hbody). simpl.
    destruct (Js.truthy (Js.field (Js.field error "body") "message")); [ reflexivity | ].
    destruct (Js.truthy (Js.field error "message")); [ reflexivity | ].
    destruct (Js.is_string error); reflexivity.
  - simpl. rewrite Hbody.
    destruct (field_falsy _ "message" Hbody) as [Hm | [fields Hobj]].
    + rewrite Hm.
      destruct (Js.truthy (Js.field error "message")); [ reflexivity | ].
      destruct (Js.is_string error); reflexivity.
    + rewrite Hobj in Hbody. discriminate Hbody.
Qed.

(** C8 (as amended). [getErrorMessage] never throws, and what it returns
    follows this order of preference: the fixed phrase for a missing error
    when the error is falsy; otherwise the message of the error's body
    when that is truthy; otherwise the error's own message when that is
    truthy; otherwise the error itself when it is a string; otherwise the
    fixed fallback phrase. The result is a string whenever the two message
    fields, where truthy, are strings. *)
Theorem getErrorMessage_normalizes (error : Js.value) :
  Js.getErrorMessage error = Js.Normal (Js.preferred_message error)
  /\ (Js.message_fields_are_strings error = true ->
      exists s, Js.preferred_message error = Js.JStr s).
Proof.
  split; [ apply getErrorMessage_preferred | ].
  unfold Js.message_fields_are_strings, Js.preferred_message. intros H.
  apply andb_prop in H. destruct H as [Hbody Hown].
  destruct (Js.truthy error); simpl; [ | eauto ].
  destruct (Js.truthy (Js.field (Js.field error "body") "message")); simpl in Hbody.
  { destruct (Js.field (Js.field error "body") "message"); try discriminate Hbody; eauto. }
  destruct (Js.truthy (Js.field error "message")); simpl in Hown.
  { destruct (Js.field error "message"); try discriminate Hown; eauto. }
  destruct error; simpl; eauto.
Qed.

(** An error whose body carries a message, as Apex rejections do. *)
Lemma getErrorMessage_normalizes_witness :
  let error := Js.JObj [("body", Js.JObj [("message", Js.JStr "Order not found")]);
                        ("message", Js.JStr "Request failed")] in
  Js.message_fields_are_strings error = true
  /\ exists s, Js.preferred_message error = Js.JStr s.
Proof.
  split; [ reflexivity | ].
  apply (proj2 (getErrorMessage_normalizes _)). reflexivity.
Defined.

(** C8, as first stated, fails: an error whose message is the number 42
    is answered with that number, which is not a string. *)
Lemma getErrorMessage_returns_a_number :
  Js.getErrorMessage (Js.JObj [("message", Js.JNum 42)]) = Js.Normal (Js.JNum 42)
  /\ Js.is_string (Js.JNum 42) = false.
Proof. split; reflexivity. Qed.

(* ===================================================================== *)
(** ** The Order Line View: local guards                                  *)
(* ===================================================================== *)

Section OrderLineGuards.
Import Method OrderProducts.

Lemma strict_eq_true (a b : option string) : strict_eq a b = true <-> a = b.
Proof.
  destruct a as [x |], b as [y |]; simpl; split; intros H;
    try reflexivity; try discriminate H.
  - apply String.eqb_eq in H. now subst.
  - injection H as ->. apply String.eqb_refl.
Qed.

(** C5. [handleActivateOrder] is guarded: with the order id missing, the
    order already activated, or no order rows, it shows one toast and
    returns; it makes no remote call and leaves every field, [isActivated]
    and [orderItems] among them, as it was. *)
Theorem handleActivateOrder_guarded
    (s : State) (o : Outcome (option Apex.Result))
    (Hguard : Js.truthy_str (recordId s) = false
              \/ isActivated s = true
              \/ orderItems s = []) :
  completion_of (handleActivateOrder o) s = Js.Normal tt
  /\ fields_after (handleActivateOrder o) s = s
  /\ (exists title message variant,
        effects_of (handleActivateOrder o) s
        = [Toast title message variant (toast_mode variant)])
  /\ (forall call, ~ In (Remote call) (effects_of (handleActivateOrder o) s)).
Proof.
  unfold completion_of, fields_after, effects_of, handleActivateOrder, showToast.
  cbv [bind reads emit].
  destruct (Js.truthy_str (recordId s)) eqn:Hid; simpl.
  2:{ repeat split; eauto. intros call [H | []]; discriminate H. }
  destruct (isActivated s) eqn:Hact; simpl.
  1:{ repeat split; eauto. intros call [H | []]; discriminate H. }
  destruct Hguard as [H | [H | H]]; try discriminate H.
  unfold hasOrderItems. rewrite H. simpl.
  repeat split; eauto. intros call [H' | []]; discriminate H'.
Qed.

(** An order with one row that is already activated. *)
Lemma handleActivateOrder_guarded_witness :
  let s := set_isActivated true
             (set_orderItems [ {| orderItemId := Some "802xx0001"; removeDisabled := Some true;
                                  others := [] |} ]
                (initial (Some "801xx0001"))) in
  fields_after (handleActivateOrder (Resolved None)) s = s.
Proof.
  intros s.
  apply (handleActivateOrder_guarded s (Resolved None)).
  right; left; reflexivity.
Defined.

(** C6. A remove action on an activated order is rejected locally: one
    warning toast, no remote call, and every field, [orderItems] among
    them, as it was, whatever the row and whatever the remote call would
    have answered. *)
Theorem remove_rejected_when_activated
    (s : State) (row : OrderLineRow) (o : Outcome (option Apex.Result))
    (Hact : isActivated s = true) :
  handleRowAction "remove" row o s
  = (Js.Normal tt, s,
     [Toast "Warning" (Js.JStr "Cannot remove products from an activated order")
            "warning" "dismissable"])
  /\ (forall call, ~ In (Remote call) (effects_of (handleRowAction "remove" row o) s))
  /\ orderItems (fields_after (handleRowAction "remove" row o) s) = orderItems s.
Proof.
  assert (Hrun : handleRowAction "remove" row o s
                 = (Js.Normal tt, s,
                    [Toast "Warning" (Js.JStr "Cannot remove products from an activated order")
                           "warning" "dismissable"])).
  { unfold handleRowAction, showToast. cbv [bind reads emit]. simpl.
    rewrite Hact. reflexivity. }
  unfold effects_of, fields_after. rewrite Hrun. simpl.
  repeat split. intros call [H | []]; discriminate H.
Qed.

(** Removing the only row of an activated order, with a remote that would
    have accepted. *)
Lemma remove_rejected_when_activated_witness :
  let row := {| orderItemId := Some "802xx0001"; removeDisabled := Some true; others := [] |} in
  let s := set_isActivated true (set_orderItems [row] (initial (Some "801xx0001"))) in
  let o := Resolved (Some {| Apex.success := true; Apex.message := Some "Removed";
                             Apex.recordId := None |}) in
  orderItems (fields_after (handleRowAction "remove" row o) s) = orderItems s.
Proof.
  intros row s o.
  apply (remove_rejected_when_activated s row o). reflexivity.
Defined.

(** C10. A message that is missing, or that names another order than the
    view's, has no effect: no reload and no refresh is scheduled, and every
    field is as it was. *)
Theorem foreign_message_ignored
    (s : State) (message : option Channel.Message)
    (Hforeign : match message with
                | None => True
                | Some m => Channel.orderId m <> recordId s
                end) :
  handleProductAddedMessage message s = (Js.Normal tt, s, []).
Proof.
  unfold handleProductAddedMessage. cbv [bind reads]. simpl.
  destruct message as [m |]; [ | reflexivity ].
  destruct (strict_eq (Channel.orderId m) (recordId s)) eqn:Heq; [ | reflexivity ].
  apply strict_eq_true in Heq. contradiction.
Qed.

(** A message for order 801xx0002 received by the view of 801xx0001. *)
Lemma foreign_message_ignored_witness :
  let s := initial (Some "801xx0001") in
  let m := {| Channel.productId := Some "01txx0001"; Channel.orderItemId := Some "802xx0009";
              Channel.orderId := Some "801xx0002" |} in
  handleProductAddedMessage (Some m) s = (Js.Normal tt, s, []).
Proof.
  intros s m. apply (foreign_message_ignored s (Some m)).
  simpl. discriminate.
Defined.

(** A message for the view's own order schedules the reload of the rows
    at once and the refresh of the record view 400 ms later, and changes
    no field. *)
Lemma own_message_schedules_refresh (s : State) (m : Channel.Message) :
  Channel.orderId m = recordId s ->
  handleProductAddedMessage (Some m) s
  = (Js.Normal tt, s, [SetTimeout RefreshOrderProducts 0;
                       SetTimeout RefreshCurrentRecordView 400]).
Proof.
  intros Hown. unfold handleProductAddedMessage. cbv [bind reads emit]. cbn.
  apply strict_eq_true in Hown. rewrite Hown. reflexivity.
Qed.

(** A message for order 801xx0001 received by its own view. *)
Lemma own_message_schedules_refresh_witness :
  let s := initial (Some "801xx0001") in
  let m := {| Channel.productId := Some "01txx0001"; Channel.orderItemId := Some "802xx0009";
              Channel.orderId := Some "801xx0001" |} in
  effects_of (handleProductAddedMessage (Some m)) s
  = [SetTimeout RefreshOrderProducts 0; SetTimeout RefreshCurrentRecordView 400].
Proof.
  intros s m. unfold effects_of.
  rewrite (own_message_schedules_refresh s m eq_refl). reflexivity.
Defined.

End OrderLineGuards.

(* ===================================================================== *)
(** ** Activation within a session                                        *)
(* ===================================================================== *)

#[local] Instance stays_preorder (S : Type) (flag : S -> bool) : PreOrder (Method.stays flag).
Proof.
  split.
  - intros s H. exact H.
  - intros a b c Hab Hbc H. apply Hbc, Hab, H.
Qed.

Ltac flag_kept := unfold Method.stays; cbn; intro; first [ assumption | reflexivity ].

Section Sessions.
Variables (St Op : Type) (step : St -> Op -> St) (flag : St -> bool) (bad : Op -> bool).
Hypothesis step_keeps :
  forall s op, bad op = false -> flag s = true -> flag (step s op) = true.

Lemma session_keeps (ops : list Op) :
  forall s, forallb (fun op => negb (bad op)) ops = true ->
            flag s = true -> flag (fold_left step ops s) = true.
Proof.
  induction ops as [| op ops IH]; intros s Hops Hs; simpl in *; [ exact Hs | ].
  apply andb_prop in Hops. destruct Hops as [Hop Hops].
  apply IH; [ exact Hops | ].
  apply step_keeps; [ | exact Hs ].
  now apply negb_true_iff in Hop.
Qed.

Lemma forallb_firstn (f : Op -> bool) (ops : list Op) :
  forall k, forallb f ops = true -> forallb f (firstn k ops) = true.
Proof.
  induction ops as [| op ops IH]; intros [| k] H; simpl in *; try reflexivity.
  apply andb_prop in H. destruct H as [Hop Hops].
  rewrite Hop. simpl. now apply IH.
Qed.

Lemma session_keeps_throughout (ops : list Op) (s : St) :
  forallb (fun op => negb (bad op)) ops = true -> flag s = true ->
  forall k, flag (fold_left step (firstn k ops) s) = true.
Proof.
  intros Hops Hs k. apply session_keeps; [ | exact Hs ].
  now apply forallb_firstn.
Qed.
End Sessions.

Module AP := AvailableProducts.
Module OP := OrderProducts.

Section ActivationFlag.
Context {strings : Js.StringPrototype}.

Lemma product_list_check_sets_flag (s : AP.State) (b : bool) :
  Js.truthy_str (AP.recordId s) = true ->
  AP.isActivated (AP.step s (AP.CheckActivation (Method.Resolved b))) = b.
Proof.
  intros Hid. unfold AP.step, Method.fields_after. cbn [AP.perform].
  unfold AP.checkActivation.
  cbv [Method.bind Method.reads Method.assign Method.emit Method.await Method.try_catch
       Method.ret Method.throw].
  rewrite Hid. cbn.
  destruct (Z.of_nat (List.length (AP.products s)) =? 0); reflexivity.
Qed.

Lemma order_line_check_sets_flag (s : OP.State) (b : bool) :
  Js.truthy_str (OP.recordId s) = true ->
  OP.isActivated (OP.step s (OP.CheckOrderActivationStatus (Method.Resolved b))) = b.
Proof.
  intros Hid. unfold OP.step, Method.fields_after. cbn [OP.perform].
  unfold OP.checkOrderActivationStatus, OP.decorateRows.
  cbv [Method.bind Method.reads Method.assign Method.emit Method.await Method.try_catch
       Method.ret Method.throw].
  rewrite Hid. cbn.
  destruct (OP.has_rows (OP.set_isActivated b s)); reflexivity.
Qed.

Lemma product_list_step_keeps (s : AP.State) (op : AP.Op) :
  AP.answers_false op = false -> AP.isActivated s = true ->
  AP.isActivated (AP.step s op) = true.
Proof.
  intros Hop. revert s.
  change (Method.relates (Method.stays AP.isActivated) (AP.perform op)).
  destruct op as [o | o | value | checked o | name row o reload | pid o reload
                 | product o reload | | | t]; cbn [AP.perform].
  - unfold AP.loadProducts, AP.transformProductData, AP.applyFilters, AP.getErrorMessage,
      AP.showToast.
    frame flag_kept.
  - intros s Hs.
    destruct (Js.truthy_str (AP.recordId s)) eqn:Hid.
    + destruct o as [[|] | e]; [ now apply product_list_check_sets_flag | discriminate Hop | ].
      unfold Method.fields_after, AP.checkActivation.
      cbv [Method.bind Method.reads Method.assign Method.emit Method.await Method.try_catch
           Method.ret Method.throw].
      rewrite Hid. cbn. exact Hs.
    + unfold Method.fields_after, AP.checkActivation.
      cbv [Method.bind Method.reads Method.ret]. rewrite Hid. cbn. exact Hs.
  - unfold AP.handleSearch, AP.applyFilters. frame flag_kept.
  - unfold AP.handleToggleExternal, AP.loadProducts, AP.transformProductData, AP.applyFilters,
      AP.getErrorMessage, AP.showToast.
    frame flag_kept.
  - unfold AP.handleRowAction, AP.handleAddExternalProduct, AP.handleAddProduct,
      AP.markProductAsAdded, AP.dispatchProductAddedEvent, AP.of_result,
      AP.loadProducts, AP.transformProductData, AP.applyFilters,
      AP.getErrorMessage, AP.showToast.
    frame flag_kept.
  - unfold AP.handleAddProduct,
      AP.markProductAsAdded, AP.dispatchProductAddedEvent, AP.of_result,
      AP.loadProducts, AP.transformProductData, AP.applyFilters,
      AP.getErrorMessage, AP.showToast.
    frame flag_kept.
  - unfold AP.handleAddExternalProduct,
      AP.markProductAsAdded, AP.dispatchProductAddedEvent, AP.of_result,
      AP.loadProducts, AP.transformProductData, AP.applyFilters,
      AP.getErrorMessage, AP.showToast.
    frame flag_kept.
  - unfold AP.handleNextPage. frame flag_kept.
  - unfold AP.handlePrevPage. frame flag_kept.
  - destruct t; cbn [AP.run_task]; unfold AP.refreshCurrentRecordView; frame flag_kept.
Qed.

Lemma order_line_step_keeps (s : OP.State) (op : OP.Op) :
  OP.answers_false op = false -> OP.isActivated s = true ->
  OP.isActivated (OP.step s op) = true.
Proof.
  intros Hop. revert s.
  change (Method.relates (Method.stays OP.isActivated) (OP.perform op)).
  destruct op as [o | | | message | result | o | o | name row o | t]; cbn [OP.perform].
  - intros s Hs.
    destruct (Js.truthy_str (OP.recordId s)) eqn:Hid.
    + destruct o as [[|] | e]; [ now apply order_line_check_sets_flag | discriminate Hop | ].
      unfold Method.fields_after, OP.checkOrderActivationStatus.
      cbv [Method.bind Method.reads Method.assign Method.emit Method.await Method.try_catch
           Method.ret Method.throw].
      rewrite Hid. cbn. exact Hs.
    + unfold Method.fields_after, OP.checkOrderActivationStatus.
      cbv [Method.bind Method.reads Method.ret]. rewrite Hid. cbn. exact Hs.
  - unfold OP.subscribeToMessageChannel. frame flag_kept.
  - unfold OP.disconnectedCallback. frame flag_kept.
  - unfold OP.handleProductAddedMessage. frame flag_kept.
  - unfold OP.wiredOrderItems, OP.decorateRows, OP.getErrorMessage, OP.showToast.
    frame flag_kept.
  - unfold OP.refreshOrderProducts_settled, OP.decorateRows. frame flag_kept.
  - unfold OP.handleActivateOrder, OP.of_result, OP.getErrorMessage, OP.showToast,
      OP.refreshPage.
    frame flag_kept.
  - unfold OP.handleRowAction, OP.refreshOrderProducts, OP.refreshCurrentRecordView,
      OP.getErrorMessage, OP.showToast.
    frame flag_kept.
  - destruct t; cbn [OP.run_task];
      unfold OP.refreshOrderProducts, OP.refreshCurrentRecordView; frame flag_kept.
Qed.

(** C1 (as amended). In either view, along every sequence of operations in
    which no activation check ([checkActivation],
    [checkOrderActivationStatus]) comes back with [false], an [isActivated]
    that is true stays true after every operation of the sequence. A check
    that resolves, for a view that has its order id, overwrites the flag
    with the remote answer. *)
Theorem activation_kept_unless_check_answers_false :
  (forall (ops : list AP.Op) (s : AP.State),
      forallb (fun op => negb (AP.answers_false op)) ops = true ->
      AP.isActivated s = true ->
      forall k, AP.isActivated (AP.run (firstn k ops) s) = true)
  /\ (forall (ops : list OP.Op) (s : OP.State),
      forallb (fun op => negb (OP.answers_false op)) ops = true ->
      OP.isActivated s = true ->
      forall k, OP.isActivated (OP.run (firstn k ops) s) = true)
  /\ (forall (s : AP.State) (b : bool),
      Js.truthy_str (AP.recordId s) = true ->
      AP.isActivated (AP.step s (AP.CheckActivation (Method.Resolved b))) = b)
  /\ (forall (s : OP.State) (b : bool),
      Js.truthy_str (OP.recordId s) = true ->
      OP.isActivated (OP.step s (OP.CheckOrderActivationStatus (Method.Resolved b))) = b).
Proof.
  repeat split.
  - intros ops s. apply session_keeps_throughout. apply product_list_step_keeps.
  - intros ops s. apply session_keeps_throughout. apply order_line_step_keeps.
  - apply product_list_check_sets_flag.
  - apply order_line_check_sets_flag.
Qed.

(** C1, as first stated, fails: the order is activated from the view, the
    flag is true, and a status check that comes back with [false] makes it
    false again. *)
Lemma activation_lost_on_false_answer :
  let line := {| OP.orderItemId := Some "802xx0001"; OP.removeDisabled := None;
                 OP.others := [] |} in
  let accepted := Method.Resolved
                    (Some {| Apex.success := true; Apex.message := Some "Order activated";
                             Apex.recordId := None |}) in
  let ops := [OP.WiredOrderItems {| OP.data := Some [line]; OP.wire_error := Js.JUndefined |};
              OP.ActivateOrderClicked accepted;
              OP.CheckOrderActivationStatus (Method.Resolved false)] in
  OP.isActivated (OP.run (firstn 2 ops) (OP.initial (Some "801xx0001"))) = true
  /\ OP.isActivated (OP.run ops (OP.initial (Some "801xx0001"))) = false.
Proof. split; reflexivity. Qed.

End ActivationFlag.

(* ===================================================================== *)
(** ** The Product List View: adding a product                            *)
(* ===================================================================== *)

Section Adding.
Import Method AvailableProducts.
Context {strings : Js.StringPrototype}.


(** The row of [markProductAsAdded]: added, labelled and disabled. *)
Lemma added_row (p : ProductRow) :
  isAddedToOrder (added p) = Some true
  /\ statusLabel (added p) = Some "✓ Added"
  /\ disableAdd (added p) = Some true.
Proof. repeat split. Qed.

(** A successful local add, with a reload that delivers [data]: the rows
    are the reloaded ones with those of the added product marked, in both
    collections, and the event carries the product id, the id of the new
    record and the order id. *)
Lemma local_add_marks_rows
    (s : State) (pid : option string) (r : Apex.Result) (data : list ProductRow) :
  Js.truthy_str pid = true ->
  Js.truthy_str (recordId s) = true ->
  Apex.success r = true ->
  let mark := fun p => if strict_eq (productId p) pid then added p else p in
  let rows := map (transformed (isActivated s)) data in
  let run := handleAddProduct pid (Resolved (Some r)) (Resolved (Some data)) in
  products (fields_after run s) = map mark rows
  /\ filteredProducts (fields_after run s)
     = map mark (if negb (searchTerm s =? "")%string
                 then filter (row_matches (searchTerm s)) rows else rows)
  /\ In (Publish {| Channel.productId := pid; Channel.orderItemId := Apex.recordId r;
                    Channel.orderId := recordId s |})
        (effects_of run s).
Proof.
  intros Hpid Hrid Hok mark rows run. subst run.
  unfold fields_after, effects_of, handleAddProduct, of_result, showToast, getErrorMessage,
    loadProducts, transformProductData, applyFilters, markProductAsAdded,
    dispatchProductAddedEvent.
  cbv [bind reads assign emit lift await try_catch try_finally ret throw].
  rewrite Hpid, Hrid. cbn. rewrite Hok. cbn.
  repeat split. tauto.
Qed.

(** A successful external add, with a reload that delivers [data]: the
    rows at the end are the reloaded ones as [transformProductData] makes
    them, so none of them carries the mark of [markProductAsAdded], and
    with the order not activated none of them is disabled. *)
Lemma external_add_shows_reloaded_rows
    (s : State) (row : ProductRow) (r : Apex.Result) (data : list ProductRow) :
  Js.truthy_str (recordId s) = true ->
  Apex.success r = true ->
  let run := handleAddExternalProduct (Some row) (Resolved (Some r)) (Resolved (Some data)) in
  products (fields_after run s) = map (transformed (isActivated s)) data
  /\ (forall p, In p (products (fields_after run s)) -> disableAdd p = Some (isActivated s)).
Proof.
  intros Hrid Hok run. subst run.
  assert (Hrows : products (fields_after
                    (handleAddExternalProduct (Some row) (Resolved (Some r))
                       (Resolved (Some data))) s)
                  = map (transformed (isActivated s)) data).
  { unfold fields_after, handleAddExternalProduct, showToast, getErrorMessage,
      loadProducts, transformProductData, applyFilters, markProductAsAdded,
      dispatchProductAddedEvent.
    cbv [bind reads assign emit lift await try_catch try_finally ret throw].
    rewrite Hrid. cbn. rewrite Hok. reflexivity. }
  split; [ exact Hrows | ].
  intros p Hin. rewrite Hrows in Hin. apply in_map_iff in Hin.
  destruct Hin as (q & <- & _). reflexivity.
Qed.

(** C2 at a failing input. An external product is added with success, and
    the reload delivers the same catalog. The event is published, but at
    the end the row is not marked in either collection: the mark set by
    [markProductAsAdded] is overwritten by the reload that follows it. The
    same row added through [handleAddProduct], which reloads first and
    marks afterwards, ends marked. *)
Theorem external_add_loses_mark :
  let row := {| productId := Some "EXT-100"; productCode := Some "KPN-EXT-100";
                productName := Some "Partner Router"; category := Some "Hardware";
                brand := Some "Partner"; isExternal := true; sourceIcon := None;
                sourceBadgeClass := None; disableAdd := None; isAddedToOrder := None;
                statusLabel := None; statusClass := None; rowClass := None;
                others := [] |} in
  let shown := transformed false row in
  let s := set_filteredProducts [shown] (set_products [shown] (initial (Some "801xx0001"))) in
  let accepted := Resolved (Some {| Apex.success := true; Apex.message := Some "Added";
                                    Apex.recordId := Some "802xx0007" |}) in
  let external := handleAddExternalProduct (Some shown) accepted (Resolved (Some [row])) in
  let local := handleAddProduct (Some "EXT-100") accepted (Resolved (Some [row])) in
  products (fields_after external s) = [shown]
  /\ filteredProducts (fields_after external s) = [shown]
  /\ isAddedToOrder shown = None /\ statusLabel shown = None /\ disableAdd shown = Some false
  /\ In (Publish {| Channel.productId := Some "EXT-100";
                    Channel.orderItemId := Some "802xx0007";
                    Channel.orderId := Some "801xx0001" |})
        (effects_of external s)
  /\ products (fields_after local s) = [added shown]
  /\ filteredProducts (fields_after local s) = [added shown].
Proof.
  cbv zeta. repeat split. cbn. tauto.
Qed.

End Adding.

(* ===================================================================== *)
(** ** Pagination                                                         *)
(* ===================================================================== *)

Section Slices.
Context {A : Type}.
Implicit Types (l : list A) (n size : nat).

(** A slice that starts inside or after the array and has a positive
    width is [width] elements from [start] on, as many as there are. *)
Lemma slice_window l (start width : Z) :
  0 <= start -> 0 < width ->
  Js.slice l start (start + width)
  = firstn (Z.to_nat width) (skipn (Z.to_nat start) l).
Proof.
  intros Hstart Hwidth. unfold Js.slice.
  destruct (start <? 0) eqn:H1; [ apply Z.ltb_lt in H1; lia | ].
  destruct (start + width <? 0) eqn:H2; [ apply Z.ltb_lt in H2; lia | ].
  destruct (Z_le_gt_dec (Z.of_nat (List.length l)) start) as [Hout | Hin].
  - rewrite Z.min_r by lia.
    rewrite !skipn_all2 by lia. now rewrite !firstn_nil.
  - rewrite (Z.min_l start) by lia.
    set (rest := skipn (Z.to_nat start) l).
    assert (Hrest : List.length rest = (List.length l - Z.to_nat start)%nat)
      by apply length_skipn.
    destruct (Z_le_gt_dec (start + width) (Z.of_nat (List.length l))) as [Hfit | Hcut].
    + rewrite Z.min_l by lia. f_equal. lia.
    + rewrite Z.min_r by lia.
      rewrite !firstn_all2 by lia. reflexivity.
Qed.

(** Cutting a list into [n] windows of [size] elements and putting them
    back together gives the list, when the windows reach its end. *)
Lemma windows_concat size (Hsize : (0 < size)%nat) n :
  forall l, (List.length l <= n * size)%nat ->
  List.concat (map (fun i => firstn size (skipn (i * size) l)) (seq 0 n)) = l.
Proof.
  induction n as [| n IH]; intros l Hlen.
  - simpl in *. destruct l; [ reflexivity | simpl in Hlen; lia ].
  - cbn [seq map List.concat]. rewrite <- seq_shift, map_map. cbn [Nat.mul skipn].
    transitivity (firstn size l ++ skipn size l); [ | apply firstn_skipn ].
    f_equal.
    etransitivity; [ | apply (IH (skipn size l)); rewrite length_skipn; lia ].
    f_equal. apply map_ext. intros i.
    rewrite skipn_skipn. do 2 f_equal. lia.
Qed.

End Slices.

Lemma ceil_div_bounds (a b : Z) :
  0 < b -> (Js.ceil_div a b - 1) * b < a <= Js.ceil_div a b * b.
Proof.
  intros Hb. unfold Js.ceil_div.
  pose proof (Z.div_mod (- a) b ltac:(lia)) as Hdiv.
  pose proof (Z.mod_pos_bound (- a) b Hb) as Hmod.
  nia.
Qed.

Section Pages.
Import Method AvailableProducts.
Context {strings : Js.StringPrototype}.

Lemma totalPages_covers (s : State) :
  0 < pageSize s ->
  1 <= totalPages s
  /\ Z.of_nat (List.length (filteredProducts s)) <= totalPages s * pageSize s.
Proof.
  intros HP. unfold totalPages.
  pose proof (ceil_div_bounds (Z.of_nat (List.length (filteredProducts s))) (pageSize s) HP).
  destruct (Z.eqb_spec (Z.of_nat (List.length (filteredProducts s))) 0) as [H0 | H0]; cbn [negb].
  - rewrite H0. lia.
  - nia.
Qed.

Lemma pagedProducts_window (s : State) (p : Z) :
  0 < pageSize s -> 1 <= p ->
  pagedProducts (at_page p s)
  = firstn (Z.to_nat (pageSize s)) (skipn (Z.to_nat ((p - 1) * pageSize s)) (filteredProducts s)).
Proof.
  intros HP Hp. unfold pagedProducts, at_page. cbn.
  apply slice_window; nia.
Qed.

(** C3. With a positive page size [P] and [L] filtered rows: [totalPages]
    is [max 1 (ceil (L / P))]; on each page [p] from 1 to [totalPages],
    [pagedProducts] is the rows at positions [(p-1)*P] up to, and not
    including, [p*P]; the pages in order, put together, are the filtered
    rows; and no position is shown on two pages. *)
Theorem pagination_partitions (s : State) (HP : 0 < pageSize s) :
  let L := Z.of_nat (List.length (filteredProducts s)) in
  let P := pageSize s in
  (exists c, (c - 1) * P < L <= c * P /\ totalPages s = Z.max 1 c)
  /\ (forall p, 1 <= p <= totalPages s ->
        pagedProducts (at_page p s)
        = firstn (Z.to_nat P) (skipn (Z.to_nat ((p - 1) * P)) (filteredProducts s)))
  /\ List.concat (map (fun p => pagedProducts (at_page (Z.of_nat p) s))
                 (seq 1 (Z.to_nat (totalPages s))))
     = filteredProducts s
  /\ (forall p j, 1 <= p <= totalPages s -> 0 <= j < P ->
        nth_error (pagedProducts (at_page p s)) (Z.to_nat j)
        = nth_error (filteredProducts s) (Z.to_nat ((p - 1) * P + j)))
  /\ (forall p q j k, 0 <= j < P -> 0 <= k < P ->
        (p - 1) * P + j = (q - 1) * P + k -> p = q /\ j = k).
Proof.
  intros L P. subst L P.
  pose proof (totalPages_covers s HP) as [Hone Hcover].
  repeat apply conj.
  - exists (Js.ceil_div (Z.of_nat (List.length (filteredProducts s))) (pageSize s)).
    split; [ now apply ceil_div_bounds | ].
    pose proof (ceil_div_bounds (Z.of_nat (List.length (filteredProducts s))) (pageSize s) HP).
    unfold totalPages.
    destruct (Z.eqb_spec (Z.of_nat (List.length (filteredProducts s))) 0) as [H0 | H0]; cbn [negb].
    + rewrite H0 in *. nia.
    + nia.
  - intros p [Hp _]. now apply pagedProducts_window.
  - rewrite <- seq_shift, map_map.
    etransitivity;
      [ | apply (windows_concat (Z.to_nat (pageSize s)) ltac:(lia)
                   (Z.to_nat (totalPages s)) (filteredProducts s)); nia ].
    f_equal. apply map_ext. intros i.
    rewrite pagedProducts_window by lia.
    do 2 f_equal. nia.
  - intros p j [Hp _] Hj.
    rewrite pagedProducts_window by lia.
    rewrite nth_error_firstn, nth_error_skipn.
    destruct (Nat.ltb_spec (Z.to_nat j) (Z.to_nat (pageSize s))); [ | lia ].
    f_equal. nia.
  - intros p q j k Hj Hk Heq.
    assert (p = q) by nia. subst q. split; [ reflexivity | lia ].
Qed.

(** The catalog of 25 rows in pages of 10. *)
Lemma pagination_partitions_witness :
  0 < pageSize Samples.loaded
  /\ List.concat (map (fun p => pagedProducts (at_page (Z.of_nat p) Samples.loaded))
                     (seq 1 (Z.to_nat (totalPages Samples.loaded))))
     = Samples.catalog.
Proof.
  split; [ reflexivity | ].
  apply (pagination_partitions Samples.loaded). reflexivity.
Defined.

End Pages.

(* ===================================================================== *)
(** ** Search                                                             *)
(* ===================================================================== *)

Section Search.
Import Method AvailableProducts.
Context {strings : Js.StringPrototype}.

Lemma fields_after_applyFilters (s : State) :
  fields_after applyFilters s
  = set_currentPage 1
      (set_filteredProducts
         (if negb (searchTerm s =? "")%string
          then filter (row_matches (searchTerm s)) (products s)
          else products s) s).
Proof. reflexivity. Qed.

Lemma field_matches_iff (f : option string) (term : string) :
  term <> "" ->
  field_matches f term = true
  <-> exists text, f = Some text /\ Js.includes (Js.toLowerCase text) term = true.
Proof.
  intros Hterm. unfold field_matches. destruct f as [text |].
  - split.
    + intros H. apply andb_prop in H. destruct H as [_ H]. eauto.
    + intros (text' & Heq & H). injection Heq as <-. rewrite H.
      destruct text as [| c text]; [ | reflexivity ].
      rewrite Js.toLowerCase_empty in H.
      destruct term as [| d term]; [ contradiction | discriminate H ].
  - split; [ discriminate | intros (text & Heq & _); discriminate Heq ].
Qed.

Lemma row_matches_iff (term : string) (product : ProductRow) :
  term <> "" ->
  row_matches term product = true
  <-> exists text,
        In (Some text) [productName product; productCode product;
                        category product; brand product]
        /\ Js.includes (Js.toLowerCase text) term = true.
Proof.
  intros Hterm. unfold row_matches. rewrite !orb_true_iff.
  rewrite !(field_matches_iff _ _ Hterm). simpl. split.
  - intros [[[H | H] | H] | H]; destruct H as (text & Heq & H); exists text; split; auto.
  - intros (text & Hin & H).
    destruct Hin as [Heq | [Heq | [Heq | [Heq | []]]]]; symmetry in Heq; eauto 8.
Qed.

(** C4 (as amended). After a search for a term, the filtered rows are
    exactly the loaded rows of which the lower case of the name, the code,
    the category or the brand contains the lower case of the term (every
    loaded row, when that is empty), so they are among the loaded rows, as
    the rows [applyFilters] keeps always are; a term with the same lower
    case as [term] leaves the view in the same state; and [applyFilters]
    puts the view on page 1. *)
Theorem search_compares_lower_case (s : State) (term : string) :
  (forall row, In row (filteredProducts (fields_after (handleSearch term) s))
               <-> In row (products s) /\ matches_term term row)
  /\ incl (filteredProducts (fields_after (handleSearch term) s)) (products s)
  /\ incl (filteredProducts (fields_after applyFilters s)) (products s)
  /\ (forall term', Js.toLowerCase term' = Js.toLowerCase term ->
        fields_after (handleSearch term') s = fields_after (handleSearch term) s)
  /\ currentPage (fields_after applyFilters s) = 1
  /\ currentPage (fields_after (handleSearch term) s) = 1.
Proof.
  assert (Hrows : forall row, In row (filteredProducts (fields_after (handleSearch term) s))
                              <-> In row (products s) /\ matches_term term row).
  { intros row. unfold matches_term.
    change (filteredProducts (fields_after (handleSearch term) s))
      with (if negb (Js.toLowerCase term =? "")%string
            then filter (row_matches (Js.toLowerCase term)) (products s)
            else products s).
    destruct (String.eqb_spec (Js.toLowerCase term) "") as [Hempty | Hterm]; cbn [negb].
    - rewrite Hempty. tauto.
    - rewrite filter_In, (row_matches_iff _ _ Hterm). tauto. }
  repeat apply conj.
  - exact Hrows.
  - intros row Hin. now apply Hrows in Hin.
  - rewrite fields_after_applyFilters. cbn.
    destruct (negb (searchTerm s =? "")%string); [ | apply incl_refl ].
    intros row Hin. now apply filter_In in Hin.
  - intros term' Hsame.
    unfold fields_after, handleSearch. cbv [bind assign]. cbn [fst snd].
    now rewrite Hsame.
  - reflexivity.
  - reflexivity.
Qed.

End Search.

(* ===================================================================== *)
(** ** The current page                                                   *)
(* ===================================================================== *)

#[local] Instance paging_preorder : PreOrder AvailableProducts.paging.
Proof.
  split.
  - intros s. split; [ reflexivity | right; split; reflexivity ].
  - intros a b c [Hab Hab'] [Hbc Hbc']. split; [ congruence | ].
    destruct Hbc' as [Hone | [Hpage Hlen]]; [ left; exact Hone | ].
    destruct Hab' as [Hone | [Hpage' Hlen']]; [ left | right; split ]; congruence.
Qed.

Ltac paging_kept :=
  split; cbn; [ reflexivity | ];
  first [ left; reflexivity | right; split; [ reflexivity | now rewrite ?length_map ] ].

Section CurrentPage.
Import Method AvailableProducts.
Context {strings : Js.StringPrototype}.

Lemma paging_applyFilters : relates paging applyFilters.
Proof. intros s. split; [ reflexivity | left; reflexivity ]. Qed.

Lemma loadProducts_first_page (o : Outcome (option (list ProductRow))) (s : State) :
  currentPage (fields_after (loadProducts o) s) = 1
  /\ pageSize (fields_after (loadProducts o) s) = pageSize s.
Proof.
  unfold fields_after, loadProducts, transformProductData, applyFilters, getErrorMessage,
    showToast.
  cbv [bind reads assign emit lift await try_catch try_finally ret throw].
  destruct o as [[data |] | e]; cbn; rewrite ?getErrorMessage_preferred; cbn;
    split; reflexivity.
Qed.

Lemma paging_loadProducts (o : Outcome (option (list ProductRow))) :
  relates paging (loadProducts o).
Proof.
  intros s. destruct (loadProducts_first_page o s) as [Hpage Hsize].
  split; [ exact Hsize | left; exact Hpage ].
Qed.

Lemma paging_checkActivation (o : Outcome bool) : relates paging (checkActivation o).
Proof.
  intros s. unfold fields_after, checkActivation.
  cbv [bind reads assign emit await try_catch ret throw].
  destruct (negb (Js.truthy_str (recordId s))); [ reflexivity | ].
  destruct o as [b | e]; cbn; [ | reflexivity ].
  destruct (Z.of_nat (List.length (products s)) =? 0); cbn; paging_kept.
Qed.

Lemma paging_markProductAsAdded (pid : option string) :
  relates paging (markProductAsAdded pid).
Proof. intros s. unfold fields_after, markProductAsAdded. cbn. paging_kept. Qed.

(** Splits a method as [frame] does, down to the filters, the loads and
    the marking of rows. *)
Ltac paging_frame :=
  frame paging_kept;
  first [ apply paging_applyFilters | apply paging_loadProducts
        | apply paging_markProductAsAdded ].

Lemma paging_perform (op : Op) :
  match op with
  | NextPage | PrevPage => True
  | _ => relates paging (perform op)
  end.
Proof.
  destruct op as [o | o | value | checked o | name row o reload | pid o reload
                 | product o reload | | | t]; cbn [perform]; try exact I.
  - apply paging_loadProducts.
  - apply paging_checkActivation.
  - unfold handleSearch. paging_frame.
  - unfold handleToggleExternal. paging_frame.
  - unfold handleRowAction, handleAddExternalProduct, handleAddProduct,
      dispatchProductAddedEvent, of_result, getErrorMessage, showToast.
    paging_frame.
  - unfold handleAddProduct, dispatchProductAddedEvent, of_result, getErrorMessage, showToast.
    paging_frame.
  - unfold handleAddExternalProduct, dispatchProductAddedEvent, getErrorMessage, showToast.
    paging_frame.
  - destruct t; cbn [run_task]; unfold refreshCurrentRecordView; frame paging_kept.
Qed.

Lemma paging_in_range (s s' : State) :
  paging s s' -> page_in_range s -> page_in_range s'.
Proof.
  intros [Hsize Hpage] [HP Hrange]. unfold page_in_range.
  assert (HP' : 0 < pageSize s') by lia.
  split; [ exact HP' | ].
  destruct Hpage as [Hone | [Hsame Hlen]].
  - rewrite Hone. pose proof (totalPages_covers s' HP'). lia.
  - unfold totalPages in *. rewrite Hsame, Hlen, Hsize. exact Hrange.
Qed.

Lemma handleNextPage_at_last (s : State) :
  totalPages s <= currentPage s -> handleNextPage s = (Js.Normal tt, s, []).
Proof.
  intros Hlast. unfold handleNextPage. cbv [bind reads assign ret].
  unfold isLastPage. apply Z.leb_le in Hlast. now rewrite Hlast.
Qed.

Lemma handleNextPage_before_last (s : State) :
  currentPage s < totalPages s ->
  handleNextPage s = (Js.Normal tt, set_currentPage (currentPage s + 1) s, []).
Proof.
  intros Hmore. unfold handleNextPage. cbv [bind reads assign ret].
  unfold isLastPage. destruct (Z.leb_spec (totalPages s) (currentPage s)); [ lia | ].
  reflexivity.
Qed.

Lemma handlePrevPage_at_first (s : State) :
  currentPage s = 1 -> handlePrevPage s = (Js.Normal tt, s, []).
Proof.
  intros Hfirst. unfold handlePrevPage. cbv [bind reads assign ret].
  unfold isFirstPage. rewrite Hfirst. reflexivity.
Qed.

Lemma page_in_range_step (s : State) (op : Op) :
  page_in_range s -> page_in_range (step s op).
Proof.
  intros Hs. pose proof (paging_perform op) as Hop.
  destruct op; try (apply (paging_in_range s); [ apply Hop | exact Hs ]).
  - destruct Hs as [HP Hrange].
    unfold step, fields_after. cbn [perform]. unfold handleNextPage.
    cbv [bind reads assign ret]. unfold isLastPage.
    destruct (Z.leb_spec (totalPages s) (currentPage s)); cbn; [ split; assumption | ].
    split; [ exact HP | ]. unfold totalPages in *. cbn. lia.
  - destruct Hs as [HP Hrange].
    unfold step, fields_after. cbn [perform]. unfold handlePrevPage.
    cbv [bind reads assign ret]. unfold isFirstPage.
    destruct (Z.eqb_spec (currentPage s) 1); cbn; [ split; assumption | ].
    split; [ exact HP | ]. unfold totalPages in *. cbn. lia.
Qed.

(** [loadProducts] is its two turns, one after the other. *)
Lemma loadProducts_turns (o : Outcome (option (list ProductRow))) (s : State) :
  loadProducts o s = (loadProducts_begin ;; loadProducts_settled o)%method s.
Proof.
  unfold loadProducts, loadProducts_begin, loadProducts_settled, transformProductData,
    applyFilters, getErrorMessage, showToast.
  cbv [bind reads assign emit lift await try_catch try_finally ret throw].
  destruct o as [[data |] | e]; cbn; rewrite ?getErrorMessage_preferred; reflexivity.
Qed.


Lemma paging_loadProducts_begin : relates paging loadProducts_begin.
Proof. intros s. split; [ reflexivity | left; reflexivity ]. Qed.



(** C7 at a failing input. A load is started on the catalog of 25 rows
    and is suspended at its [await]; [handleNextPage] runs and turns to
    page 2 of 3; the load then fails, and its [catch] clears the rows
    without setting the page again. The range held before each of the
    three turns, and after the last the view is on page 2 of 1. *)
Theorem page_turned_during_failed_load :
  let suspended := fields_after loadProducts_begin Samples.loaded in
  let turned := step suspended NextPage in
  let failed := fields_after
                  (loadProducts_settled (Rejected (Js.JStr "Network error"))) turned in
  page_in_range Samples.loaded
  /\ page_in_range suspended
  /\ page_in_range turned
  /\ currentPage failed = 2 /\ totalPages failed = 1
  /\ ~ page_in_range failed.
Proof.
  cbv zeta. unfold page_in_range. cbn. repeat apply conj; lia.
Qed.


(** Every operation of the Product List View that runs from its call to
    the settlement of its promise before the next one starts keeps
    [1 <= currentPage <= totalPages]; [handleNextPage] on the last page and
    [handlePrevPage] on page 1 do nothing; [loadProducts] and
    [applyFilters] end on page 1. With 25 filtered rows in pages of 10,
    page 1 shows rows 1 to 10 and is not the last page, two steps forward
    page 3 shows rows 21 to 25 and is the last page, and one more step
    forward leaves the view as it is. *)
Theorem current_page_in_range :
  (forall s op, page_in_range s -> page_in_range (step s op))
  /\ (forall s, 0 < pageSize s -> totalPages s <= currentPage s ->
        handleNextPage s = (Js.Normal tt, s, []))
  /\ (forall s, currentPage s = 1 -> handlePrevPage s = (Js.Normal tt, s, []))
  /\ (forall s o, currentPage (fields_after (loadProducts o) s) = 1)
  /\ (forall s, currentPage (fields_after applyFilters s) = 1)
  /\ (forall s,
        List.length (filteredProducts s) = 25%nat -> pageSize s = 10 -> currentPage s = 1 ->
        let third := run [NextPage; NextPage] s in
        pagedProducts s = firstn 10 (filteredProducts s)
        /\ List.length (pagedProducts s) = 10%nat
        /\ isLastPage s = false
        /\ currentPage third = 3
        /\ pagedProducts third = skipn 20 (filteredProducts s)
        /\ List.length (pagedProducts third) = 5%nat
        /\ isLastPage third = true
        /\ handleNextPage third = (Js.Normal tt, third, [])).
Proof.
  repeat apply conj.
  - apply page_in_range_step.
  - intros s _. apply handleNextPage_at_last.
  - apply handlePrevPage_at_first.
  - intros s o. apply loadProducts_first_page.
  - reflexivity.
  - intros s Hlen Hsize Hpage third.
    assert (Hpages : forall s', filteredProducts s' = filteredProducts s ->
                                pageSize s' = pageSize s -> totalPages s' = 3).
    { intros s' Hrows Hsize'. unfold totalPages. rewrite Hrows, Hsize', Hlen, Hsize.
      reflexivity. }
    assert (Hsecond : step s NextPage = set_currentPage 2 s).
    { unfold step, fields_after. cbn [perform].
      rewrite handleNextPage_before_last
        by (rewrite (Hpages s eq_refl eq_refl), Hpage; lia).
      cbn [fst snd]. now rewrite Hpage. }
    assert (Hthird : third = set_currentPage 3 s).
    { subst third. unfold run. cbn [fold_left]. rewrite Hsecond.
      unfold step, fields_after. cbn [perform].
      rewrite handleNextPage_before_last
        by (rewrite (Hpages (set_currentPage 2 s) eq_refl eq_refl); cbn; lia).
      reflexivity. }
    assert (Hfirst_rows : pagedProducts s = firstn 10 (filteredProducts s)).
    { replace s with (at_page 1 s) at 1
        by (unfold at_page, set_currentPage; destruct s; cbn in *; congruence).
      rewrite pagedProducts_window by lia. rewrite Hsize. reflexivity. }
    assert (Hthird_rows : pagedProducts third = skipn 20 (filteredProducts s)).
    { rewrite Hthird. change (set_currentPage 3 s) with (at_page 3 s).
      rewrite pagedProducts_window by lia. rewrite Hsize.
      change (Z.to_nat ((3 - 1) * 10)) with 20%nat. change (Z.to_nat 10) with 10%nat.
      apply firstn_all2. rewrite length_skipn. lia. }
    repeat apply conj.
    + exact Hfirst_rows.
    + rewrite Hfirst_rows, length_firstn. lia.
    + unfold isLastPage. rewrite (Hpages s eq_refl eq_refl), Hpage. reflexivity.
    + rewrite Hthird. reflexivity.
    + exact Hthird_rows.
    + rewrite Hthird_rows, length_skipn. lia.
    + rewrite Hthird. unfold isLastPage.
      rewrite (Hpages (set_currentPage 3 s) eq_refl eq_refl). reflexivity.
    + apply handleNextPage_at_last. rewrite Hthird.
      rewrite (Hpages (set_currentPage 3 s) eq_refl eq_refl). cbn. lia.
Qed.

End CurrentPage.

(* ===================================================================== *)
(** ** Exceptions and effects of a method                                 *)
(* ===================================================================== *)

Section Settling.
Import Method.
Context {S E : Type}.

Lemma settles_ret {A} (a : A) : settles (S := S) (E := E) (ret a).
Proof. intros s. now exists a. Qed.

Lemma settles_reads {A} (f : S -> A) : settles (E := E) (reads f).
Proof. intros s. now exists (f s). Qed.

Lemma settles_assign (upd : S -> S) : settles (E := E) (assign upd).
Proof. intros s. now exists tt. Qed.

Lemma settles_emit (e : E) : settles (S := S) (emit e).
Proof. intros s. now exists tt. Qed.

Lemma settles_getErrorMessage (e : Js.value) :
  settles (S := S) (E := E) (lift (Js.getErrorMessage e)).
Proof.
  intros s. exists (Js.preferred_message e).
  unfold completion_of, lift. cbn. apply getErrorMessage_preferred.
Qed.

Lemma settles_bind {A B} (m : M S E A) (k : A -> M S E B) :
  settles m -> (forall a, settles (k a)) -> settles (bind m k).
Proof.
  intros Hm Hk s. destruct (Hm s) as [a Ha].
  unfold completion_of, bind in *.
  destruct (m s) as [[c s1] log1]; cbn in Ha; subst c.
  destruct (Hk a s1) as [b Hb]. unfold completion_of in Hb.
  destruct (k a s1) as [[c s2] log2]; cbn in *. now exists b.
Qed.

(** A [try] with a handler that settles settles, whatever its body does. *)
Lemma settles_try_catch {A} (body : M S E A) (handler : Js.value -> M S E A) :
  (forall e, settles (handler e)) -> settles (try_catch body handler).
Proof.
  intros Hh s. unfold completion_of, try_catch.
  destruct (body s) as [[[a | e] s1] log1]; cbn; [ now exists a | ].
  destruct (Hh e s1) as [b Hb]. unfold completion_of in Hb.
  destruct (handler e s1) as [[c s2] log2]; cbn in *. now exists b.
Qed.

Lemma settles_try_finally {A} (body : M S E A) (final : M S E unit) :
  settles body -> settles final -> settles (try_finally body final).
Proof.
  intros Hb Hf s. destruct (Hb s) as [a Ha].
  unfold completion_of, try_finally in *.
  destruct (body s) as [[c s1] log1]; cbn in Ha; subst c.
  destruct (Hf s1) as [u Hu]. unfold completion_of in Hu.
  destruct (final s1) as [[c s2] log2]; cbn in *; subst c. now exists a.
Qed.

Context (P : E -> Prop).

Lemma emits_ret {A} (a : A) : emits (S := S) P (ret a).
Proof. intros s. constructor. Qed.

Lemma emits_throw {A} (e : Js.value) : emits (S := S) (A := A) P (throw e).
Proof. intros s. constructor. Qed.

Lemma emits_reads {A} (f : S -> A) : emits P (reads f).
Proof. intros s. constructor. Qed.

Lemma emits_assign (upd : S -> S) : emits P (assign upd).
Proof. intros s. constructor. Qed.

Lemma emits_lift {A} (c : Js.completion A) : emits (S := S) P (lift c).
Proof. intros s. constructor. Qed.

Lemma emits_emit (e : E) : P e -> emits (S := S) P (emit e).
Proof. intros He s. repeat constructor. exact He. Qed.

Lemma emits_bind {A B} (m : M S E A) (k : A -> M S E B) :
  emits P m -> (forall a, emits P (k a)) -> emits P (bind m k).
Proof.
  intros Hm Hk s. specialize (Hm s). unfold effects_of, bind in *.
  destruct (m s) as [[[a | e] s1] log1]; cbn in *; [ | exact Hm ].
  specialize (Hk a s1). unfold effects_of in Hk.
  destruct (k a s1) as [[c s2] log2]; cbn in *.
  apply Forall_app. now split.
Qed.

Lemma emits_await {A} (call : E) (o : Outcome A) : P call -> emits (S := S) P (await call o).
Proof.
  intros Hcall. apply emits_bind; [ now apply emits_emit | ].
  intros _. destruct o; [ apply emits_ret | apply emits_throw ].
Qed.

Lemma emits_try_catch {A} (body : M S E A) (handler : Js.value -> M S E A) :
  emits P body -> (forall e, emits P (handler e)) -> emits P (try_catch body handler).
Proof.
  intros Hb Hh s. specialize (Hb s). unfold effects_of, try_catch in *.
  destruct (body s) as [[[a | e] s1] log1]; cbn in *; [ exact Hb | ].
  specialize (Hh e s1). unfold effects_of in Hh.
  destruct (handler e s1) as [[c s2] log2]; cbn in *.
  apply Forall_app. now split.
Qed.

Lemma emits_try_finally {A} (body : M S E A) (final : M S E unit) :
  emits P body -> emits P final -> emits P (try_finally body final).
Proof.
  intros Hb Hf s. specialize (Hb s). unfold effects_of, try_finally in *.
  destruct (body s) as [[c s1] log1]; cbn in *.
  specialize (Hf s1). unfold effects_of in Hf.
  destruct (final s1) as [[[u | e] s2] log2]; cbn in *; apply Forall_app; now split.
Qed.

End Settling.

(** Follows a method to show that no exception leaves it. *)
Ltac settle :=
  repeat
    (cbv zeta;
     lazymatch goal with
     | |- Method.settles (Method.ret _) => refine (settles_ret _)
     | |- Method.settles (Method.reads _) => refine (settles_reads _)
     | |- Method.settles (Method.assign _) => refine (settles_assign _)
     | |- Method.settles (Method.emit _) => refine (settles_emit _)
     | |- Method.settles (Method.lift (Js.getErrorMessage _)) =>
         refine (settles_getErrorMessage _)
     | |- Method.settles (Method.bind _ _) => refine (settles_bind _ _ _ _); [ | intro ]
     | |- Method.settles (Method.try_catch _ _) => refine (settles_try_catch _ _ _); intro
     | |- Method.settles (Method.try_finally _ _) => refine (settles_try_finally _ _ _ _)
     | |- Method.settles (if ?b then _ else _) => destruct b
     | |- Method.settles (match ?x with _ => _ end) => destruct x
     end).

(** Follows a method to show that its effects satisfy a predicate; [leaf]
    closes the predicate at an effect. *)
Ltac effects leaf :=
  repeat
    (cbv zeta;
     lazymatch goal with
     | |- Method.emits _ (Method.ret _) => refine (emits_ret _ _)
     | |- Method.emits _ (Method.throw _) => refine (emits_throw _ _)
     | |- Method.emits _ (Method.reads _) => refine (emits_reads _ _)
     | |- Method.emits _ (Method.assign _) => refine (emits_assign _ _)
     | |- Method.emits _ (Method.lift _) => refine (emits_lift _ _)
     | |- Method.emits _ (Method.emit _) => refine (emits_emit _ _ _); leaf
     | |- Method.emits _ (Method.await _ _) => refine (emits_await _ _ _ _); leaf
     | |- Method.emits _ (Method.bind _ _) => refine (emits_bind _ _ _ _ _); [ | intro ]
     | |- Method.emits _ (Method.try_catch _ _) =>
         refine (emits_try_catch _ _ _ _ _); [ | intro ]
     | |- Method.emits _ (Method.try_finally _ _) => refine (emits_try_finally _ _ _ _ _)
     | |- Method.emits _ (if ?b then _ else _) => destruct b
     | |- Method.emits _ (match ?x with _ => _ end) => destruct x
     end).

Ltac unfold_product_list :=
  unfold AP.handleToggleExternal, AP.handleSearch, AP.handleRowAction,
    AP.handleAddExternalProduct, AP.handleAddProduct, AP.markProductAsAdded,
    AP.dispatchProductAddedEvent, AP.of_result, AP.loadProducts, AP.transformProductData,
    AP.applyFilters, AP.checkActivation, AP.handleNextPage, AP.handlePrevPage,
    AP.refreshCurrentRecordView, AP.getErrorMessage, AP.showToast.

Ltac unfold_order_line :=
  unfold OP.checkOrderActivationStatus, OP.subscribeToMessageChannel, OP.disconnectedCallback,
    OP.handleProductAddedMessage, OP.wiredOrderItems, OP.refreshOrderProducts_settled,
    OP.handleActivateOrder, OP.handleRowAction, OP.refreshOrderProducts,
    OP.refreshCurrentRecordView, OP.refreshPage, OP.decorateRows, OP.of_result,
    OP.getErrorMessage, OP.showToast.

Section NoException.
Import Method.
Context {strings : Js.StringPrototype}.

Lemma product_list_settles (op : AP.Op) : settles (AP.perform op).
Proof.
  destruct op as [o | o | value | checked o | name row o reload | pid o reload
                 | product o reload | | | t]; cbn [AP.perform];
    try (destruct t; cbn [AP.run_task]); unfold_product_list; settle.
Qed.

Lemma order_line_settles (op : OP.Op) : OP.rejected_refresh op = false -> settles (OP.perform op).
Proof.
  intros Hop.
  destruct op as [o | | | message | result | o | o | name row o | t]; cbn [OP.perform];
    try (destruct t; cbn [OP.run_task]); unfold_order_line; settle.
  discriminate Hop.
Qed.

(** No operation of the Product List View lets an exception out, whatever
    the remote calls settle to, a [null] result included; in the Order
    Line View the one exception is the rejection of [refreshApex], which
    [refreshOrderProducts] passes on after its [finally]. *)
Theorem operations_never_throw :
  (forall op s, Method.completion_of (AP.perform op) s = Js.Normal tt)
  /\ (forall op s, OP.rejected_refresh op = false ->
        Method.completion_of (OP.perform op) s = Js.Normal tt)
  /\ (forall e s,
        Method.completion_of (OP.perform (OP.RefreshSettled (Method.Rejected e))) s
        = Js.Throw e).
Proof.
  repeat apply conj.
  - intros op s. destruct (product_list_settles op s) as [[] H]. exact H.
  - intros op s Hop. destruct (order_line_settles op Hop s) as [[] H]. exact H.
  - reflexivity.
Qed.

End NoException.

(* ===================================================================== *)
(** ** What a load leaves behind                                          *)
(* ===================================================================== *)

#[local] Instance keeps_preorder (S : Type) (I : S -> Prop) : PreOrder (Method.keeps I).
Proof.
  split.
  - intros s H. exact H.
  - intros a b c Hab Hbc H. apply Hbc, Hab, H.
Qed.

Section Loading.
Import Method AvailableProducts.
Context {strings : Js.StringPrototype}.

Lemma loadProducts_delivered (data : list ProductRow) (s : State) :
  loadProducts (Resolved (Some data)) s
  = (Js.Normal tt,
     set_isLoading false
       (set_currentPage 1
          (set_filteredProducts (shown (searchTerm s) (map (transformed (isActivated s)) data))
             (set_showStats false
                (set_totalCount (Z.of_nat (List.length data))
                   (set_apiCount (count isExternal (map (transformed (isActivated s)) data))
                      (set_sfCount (count (fun p => negb (isExternal p))
                                      (map (transformed (isActivated s)) data))
                         (set_products (map (transformed (isActivated s)) data)
                            (set_currentPage 1
                               (set_error Js.JUndefined (set_isLoading true s)))))))))),
     [Remote (GetCombinedProducts (recordId s) (includeExternal s)); Microtask ShowStats]).
Proof.
  unfold loadProducts, transformProductData, applyFilters, shown.
  cbv [bind reads assign emit await try_catch try_finally ret].
  cbn. rewrite length_map. reflexivity.
Qed.

Lemma loadProducts_failed (o : Outcome (option (list ProductRow))) (e : Js.value) (s : State) :
  load_failure o = Some e ->
  loadProducts o s
  = (Js.Normal tt,
     set_isLoading false
       (set_filteredProducts []
          (set_products []
             (set_error (Js.preferred_message e)
                (set_currentPage 1 (set_error Js.JUndefined (set_isLoading true s)))))),
     [Remote (GetCombinedProducts (recordId s) (includeExternal s));
      Toast "Error loading products" (Js.preferred_message e) "error" "sticky"]).
Proof.
  intros Hfail.
  unfold loadProducts, transformProductData, applyFilters, getErrorMessage, showToast.
  cbv [bind reads assign emit lift await try_catch try_finally ret throw].
  destruct o as [[data |] | e']; cbn in Hfail; try discriminate Hfail;
    injection Hfail as <-; cbn; rewrite ?getErrorMessage_preferred; reflexivity.
Qed.

(** A load that fails clears the catalog and the filtered rows, stores the
    message and shows it in one sticky toast, ends on page 1 of 1 with the
    spinner off, and leaves the three counts of the stats banner, the
    search term and the activation flag as they were. A catalog that
    arrives as [null] is such a failure. *)
Theorem failed_load_clears_rows
    (s : State) (o : Outcome (option (list ProductRow))) (e : Js.value)
    (Hfail : load_failure o = Some e) :
  let s' := fields_after (loadProducts o) s in
  products s' = [] /\ filteredProducts s' = [] /\ pagedProducts s' = []
  /\ error s' = Js.preferred_message e
  /\ isLoading s' = false /\ currentPage s' = 1 /\ totalPages s' = 1
  /\ (sfCount s', apiCount s', totalCount s') = (sfCount s, apiCount s, totalCount s)
  /\ searchTerm s' = searchTerm s /\ isActivated s' = isActivated s
  /\ effects_of (loadProducts o) s
     = [Remote (GetCombinedProducts (recordId s) (includeExternal s));
        Toast "Error loading products" (Js.preferred_message e) "error" "sticky"].
Proof.
  unfold fields_after, effects_of. rewrite (loadProducts_failed o e s Hfail).
  cbn [fst snd]. repeat apply conj; try reflexivity.
  unfold pagedProducts, Js.slice. cbn [filteredProducts set_isLoading set_filteredProducts].
  now rewrite skipn_nil, firstn_nil.
Qed.

(** A load that delivers a catalog shows it under the search that was
    typed before: the rows are the delivered ones, in their order, each
    with its own fields kept, its source icon and badge set from
    [isExternal] and its Add button set from the activation; the filtered
    rows are those of them that the stored term keeps; the view is on page
    1 with the spinner off and no error. The stats banner is hidden and
    shown again by the task the load schedules. A change of the External
    switch asks for the catalog with the new setting. *)
Theorem load_shows_catalog_under_search (s : State) (data : list ProductRow) :
  let s' := fields_after (loadProducts (Resolved (Some data))) s in
  products s' = map (transformed (isActivated s)) data
  /\ map (fun p => (productId p, productCode p, productName p, category p, brand p,
                    isExternal p, others p)) (products s')
     = map (fun p => (productId p, productCode p, productName p, category p, brand p,
                      isExternal p, others p)) data
  /\ (forall row, In row (products s') ->
        disableAdd row = Some (isActivated s)
        /\ sourceIcon row
           = Some (if isExternal row then "utility:world" else "utility:salesforce1"))
  /\ searchTerm s' = searchTerm s
  /\ filteredProducts s' = shown (searchTerm s) (products s')
  /\ currentPage s' = 1 /\ isLoading s' = false /\ error s' = Js.JUndefined
  /\ showStats s' = false
  /\ In (Microtask ShowStats) (effects_of (loadProducts (Resolved (Some data))) s)
  /\ showStats (step s' (RunTask ShowStats)) = true
  /\ (forall checked o,
        hd_error (effects_of (handleToggleExternal checked o) s)
        = Some (Remote (GetCombinedProducts (recordId s) checked))).
Proof.
  unfold fields_after, effects_of. rewrite loadProducts_delivered. cbn [fst snd].
  repeat apply conj; try reflexivity.
  - cbn. now rewrite map_map.
  - intros row Hin. cbn in Hin. apply in_map_iff in Hin.
    destruct Hin as (p & <- & _). split; reflexivity.
  - cbn. tauto.
  - intros checked o.
    unfold handleToggleExternal, loadProducts, transformProductData, applyFilters,
      getErrorMessage, showToast.
    cbv [bind reads assign emit lift await try_catch try_finally ret throw].
    destruct o as [[rows |] | e]; cbn; rewrite ?getErrorMessage_preferred; reflexivity.
Qed.

End Loading.

(* ===================================================================== *)
(** ** Rows, buttons and counts of the Product List View                  *)
(* ===================================================================== *)

(** Closes an assignment to a field that the property [I] does not read. *)
Ltac fields_untouched I := unfold Method.keeps, I; cbn; intro; assumption.

Section ProductRows.
Import Method AvailableProducts.
Context {strings : Js.StringPrototype}.

Lemma checkActivation_fields (o : Outcome bool) (s : State) :
  fields_after (checkActivation o) s
  = match o with
    | Resolved b =>
        if Js.truthy_str (recordId s) then
          if negb (Z.of_nat (List.length (products s)) =? 0) then
            set_filteredProducts (map (with_disableAdd b) (filteredProducts s))
              (set_products (map (with_disableAdd b) (products s)) (set_isActivated b s))
          else set_isActivated b s
        else s
    | Rejected _ => s
    end.
Proof.
  unfold fields_after, checkActivation.
  cbv [bind reads assign emit await try_catch ret throw].
  destruct (Js.truthy_str (recordId s)); cbn; destruct o as [b | e]; cbn; try reflexivity.
  destruct (Z.of_nat (List.length (products s)) =? 0); reflexivity.
Qed.

Lemma markProductAsAdded_fields (pid : option string) (s : State) :
  let mark := fun p => if strict_eq (productId p) pid then added p else p in
  fields_after (markProductAsAdded pid) s
  = set_showStats false
      (set_totalCount (Z.of_nat (List.length (map mark (products s))))
         (set_apiCount (count isExternal (map mark (products s)))
            (set_sfCount (count (fun p => negb (isExternal p)) (map mark (products s)))
               (set_filteredProducts (map mark (filteredProducts s))
                  (set_products (map mark (products s)) s))))).
Proof. reflexivity. Qed.

Lemma in_firstn {A} (x : A) (n : nat) (l : list A) : In x (firstn n l) -> In x l.
Proof. intros H. rewrite <- (firstn_skipn n l). apply in_or_app. now left. Qed.

Lemma in_skipn {A} (x : A) (n : nat) (l : list A) : In x (skipn n l) -> In x l.
Proof. intros H. rewrite <- (firstn_skipn n l). apply in_or_app. now right. Qed.

Lemma length_zero_nil {A} (l : list A) : Z.of_nat (List.length l) = 0 <-> l = [].
Proof. destruct l; cbn; split; intros H; try reflexivity; try discriminate H; lia. Qed.

Lemma shown_incl (term : string) (rows : list ProductRow) : incl (shown term rows) rows.
Proof.
  unfold shown. destruct (negb (term =? "")%string); [ | apply incl_refl ].
  intros row Hin. now apply filter_In in Hin.
Qed.

Lemma shown_nil (term : string) : shown term [] = [].
Proof. unfold shown. now destruct (negb (term =? "")%string). Qed.

(** The four methods that write rows keep Add disabled on an activated order. *)
Lemma disabled_applyFilters : relates (keeps add_disabled_when_activated) applyFilters.
Proof.
  intros s [Hnil Hrows]. rewrite fields_after_applyFilters.
  fold (shown (searchTerm s) (products s)).
  split; cbn.
  - intros Hempty. rewrite Hempty. apply shown_nil.
  - intros Hact row Hin. apply Hrows; [ exact Hact | ].
    apply in_app_iff. left. apply in_app_iff in Hin.
    destruct Hin as [Hin | Hin]; [ exact Hin | now apply shown_incl in Hin ].
Qed.

Lemma disabled_loadProducts (o : Outcome (option (list ProductRow))) :
  relates (keeps add_disabled_when_activated) (loadProducts o).
Proof.
  intros s _. unfold fields_after.
  destruct (load_failure o) as [e |] eqn:Hfail.
  - rewrite (loadProducts_failed o e s Hfail). split; cbn; [ reflexivity | ].
    intros _ row [].
  - destruct o as [[data |] | e]; try discriminate Hfail.
    rewrite loadProducts_delivered. split; cbn.
    + intros Hempty. rewrite Hempty. apply shown_nil.
    + intros Hact row Hin. rewrite Hact in Hin.
      assert (Hrow : In row (map (transformed true) data)).
      { apply in_app_iff in Hin.
        destruct Hin as [Hin | Hin]; [ exact Hin | now apply shown_incl in Hin ]. }
      apply in_map_iff in Hrow. destruct Hrow as (p & <- & _). reflexivity.
Qed.

Lemma disabled_markProductAsAdded (pid : option string) :
  relates (keeps add_disabled_when_activated) (markProductAsAdded pid).
Proof.
  intros s [Hnil Hrows]. rewrite markProductAsAdded_fields. split; cbn.
  - intros Hempty. apply map_eq_nil in Hempty. now rewrite (Hnil Hempty).
  - intros Hact row Hin. rewrite <- map_app in Hin.
    apply in_map_iff in Hin. destruct Hin as (p & <- & Hp).
    destruct (strict_eq (productId p) pid); [ reflexivity | now apply Hrows ].
Qed.

Lemma disabled_checkActivation (o : Outcome bool) :
  relates (keeps add_disabled_when_activated) (checkActivation o).
Proof.
  intros s [Hnil Hrows]. rewrite checkActivation_fields.
  destruct o as [b | e]; [ | now split ].
  destruct (Js.truthy_str (recordId s)); [ | now split ].
  destruct (Z.eqb_spec (Z.of_nat (List.length (products s))) 0) as [Hzero | Hsome]; cbn [negb].
  - apply length_zero_nil in Hzero. split; cbn; [ exact Hnil | ].
    intros _ row Hin. rewrite Hzero, (Hnil Hzero) in Hin. destruct Hin.
  - split; cbn.
    + intros Hempty. apply map_eq_nil in Hempty. now rewrite (Hnil Hempty).
    + intros Hact row Hin. rewrite <- map_app in Hin.
      apply in_map_iff in Hin. destruct Hin as (p & <- & _). cbn. now rewrite Hact.
Qed.

Lemma disabled_perform (op : Op) : relates (keeps add_disabled_when_activated) (perform op).
Proof.
  destruct op as [o | o | value | checked o | name row o reload | pid o reload
                 | product o reload | | | t]; cbn [perform];
    try (destruct t; cbn [run_task]);
    unfold handleToggleExternal, handleSearch, handleRowAction, handleAddExternalProduct,
      handleAddProduct, dispatchProductAddedEvent, of_result, handleNextPage, handlePrevPage,
      refreshCurrentRecordView, getErrorMessage, showToast;
    frame ltac:(fields_untouched add_disabled_when_activated);
    first [ apply disabled_applyFilters | apply disabled_loadProducts
          | apply disabled_markProductAsAdded | apply disabled_checkActivation ].
Qed.

(** On an activated order the Add button of every row is disabled, in the
    catalog and in the filtered rows, after every operation of the view:
    the property holds when the component is constructed and every
    operation keeps it, so it holds after every sequence of operations. *)
Theorem add_stays_disabled_on_activated_order :
  (forall rid, add_disabled_when_activated (initial rid))
  /\ (forall s op, add_disabled_when_activated s -> add_disabled_when_activated (step s op))
  /\ (forall ops rid row,
        isActivated (run ops (initial rid)) = true ->
        In row (pagedProducts (run ops (initial rid))) ->
        disableAdd row = Some true).
Proof.
  assert (Hinit : forall rid, add_disabled_when_activated (initial rid)).
  { intros rid. split; cbn; [ reflexivity | intros H; discriminate H ]. }
  assert (Hstep : forall s op,
             add_disabled_when_activated s -> add_disabled_when_activated (step s op)).
  { intros s op. apply (disabled_perform op s). }
  assert (Hrun : forall ops s,
             add_disabled_when_activated s -> add_disabled_when_activated (run ops s)).
  { induction ops as [| op ops IH]; intros s Hs; [ exact Hs | ].
    apply IH, Hstep, Hs. }
  repeat apply conj; [ exact Hinit | exact Hstep | ].
  intros ops rid row Hact Hin.
  destruct (Hrun ops (initial rid) (Hinit rid)) as [_ Hrows].
  apply Hrows; [ exact Hact | ].
  apply in_app_iff. right.
  unfold pagedProducts, Js.slice in Hin.
  apply in_firstn, in_skipn in Hin. exact Hin.
Qed.

Lemma count_map {A} (f : A -> bool) (g : A -> A) (l : list A) :
  (forall x, f (g x) = f x) -> count f (map g l) = count f l.
Proof.
  intros Hfg. unfold count. f_equal.
  induction l as [| x l IH]; cbn; [ reflexivity | ].
  rewrite Hfg. destruct (f x); cbn; now rewrite IH.
Qed.

Lemma stats_loadProducts (o : Outcome (option (list ProductRow))) :
  relates (keeps stats_count_catalog) (loadProducts o).
Proof.
  intros s _. unfold fields_after.
  destruct (load_failure o) as [e |] eqn:Hfail.
  - rewrite (loadProducts_failed o e s Hfail). intros Hrows. now destruct Hrows.
  - destruct o as [[data |] | e]; try discriminate Hfail.
    rewrite loadProducts_delivered. intros _.
    unfold sfProductCount, externalProductCount. cbn. now rewrite length_map.
Qed.

Lemma stats_markProductAsAdded (pid : option string) :
  relates (keeps stats_count_catalog) (markProductAsAdded pid).
Proof. intros s _ _. rewrite markProductAsAdded_fields. repeat split. Qed.

Lemma stats_checkActivation (o : Outcome bool) :
  relates (keeps stats_count_catalog) (checkActivation o).
Proof.
  intros s Hs. rewrite checkActivation_fields.
  destruct o as [b | e]; [ | exact Hs ].
  destruct (Js.truthy_str (recordId s)); [ | exact Hs ].
  destruct (Z.eqb_spec (Z.of_nat (List.length (products s))) 0) as [Hzero | Hsome]; cbn [negb].
  - exact Hs.
  - intros _. unfold stats_count_catalog, sfProductCount, externalProductCount in *. cbn.
    rewrite !count_map, length_map by reflexivity.
    apply Hs. intros Hempty. now rewrite Hempty in Hsome.
Qed.

Lemma stats_perform (op : Op) : relates (keeps stats_count_catalog) (perform op).
Proof.
  destruct op as [o | o | value | checked o | name row o reload | pid o reload
                 | product o reload | | | t]; cbn [perform];
    try (destruct t; cbn [run_task]);
    unfold handleToggleExternal, handleSearch, applyFilters, handleRowAction,
      handleAddExternalProduct, handleAddProduct, dispatchProductAddedEvent, of_result,
      handleNextPage, handlePrevPage, refreshCurrentRecordView, getErrorMessage, showToast;
    frame ltac:(fields_untouched stats_count_catalog);
    first [ apply stats_loadProducts | apply stats_markProductAsAdded
          | apply stats_checkActivation ].
Qed.

(** Whenever the view holds a catalog, the three counts of the stats
    banner are the counts of its rows: [sfCount] the rows that are not
    external, [apiCount] the external ones, [totalCount] all of them, so
    the first two add up to the third. This holds when the component is
    constructed and after every operation. *)
Theorem stats_count_the_catalog :
  (forall rid, stats_count_catalog (initial rid))
  /\ (forall s op, stats_count_catalog s -> stats_count_catalog (step s op))
  /\ (forall s, stats_count_catalog s -> products s <> [] ->
        sfCount s + apiCount s = totalCount s).
Proof.
  repeat apply conj.
  - intros rid Hrows. now destruct Hrows.
  - intros s op. apply (stats_perform op s).
  - intros s Hs Hrows. destruct (Hs Hrows) as (Hsf & Hapi & Htotal).
    rewrite Hsf, Hapi, Htotal. unfold sfProductCount, externalProductCount, count.
    clear. induction (products s) as [| p rows IH]; [ reflexivity | ].
    cbn [filter]. destruct (isExternal p); cbn [negb List.length] in *; lia.
Qed.

End ProductRows.

(* ===================================================================== *)
(** ** Rows and activation in the Order Line View                         *)
(* ===================================================================== *)

Section OrderRows.
Import Method OrderProducts.

Lemma wiredOrderItems_run (result : WireResult) (s : State) :
  wiredOrderItems result s
  = match data result with
    | Some rows =>
        (Js.Normal tt,
         set_error Js.JUndefined
           (set_orderItems (map (with_removeDisabled (isActivated s)) rows)
              (set_wiredOrderItemsResult (Some result) s)),
         [])
    | None =>
        if Js.truthy (wire_error result) then
          (Js.Normal tt,
           set_orderItems []
             (set_error (Js.preferred_message (wire_error result))
                (set_wiredOrderItemsResult (Some result) s)),
           [Toast "Error loading order products" (Js.preferred_message (wire_error result))
                  "error" "sticky"])
        else (Js.Normal tt, set_wiredOrderItemsResult (Some result) s, [])
    end.
Proof.
  unfold wiredOrderItems, decorateRows, getErrorMessage, showToast.
  cbv [bind reads assign emit lift ret].
  destruct (data result) as [rows |]; cbn; [ reflexivity | ].
  destruct (Js.truthy (wire_error result)); cbn; [ | reflexivity ].
  rewrite getErrorMessage_preferred. reflexivity.
Qed.

Lemma checkOrderActivationStatus_fields (o : Outcome bool) (s : State) :
  fields_after (checkOrderActivationStatus o) s
  = match o with
    | Resolved b =>
        if Js.truthy_str (recordId s) then
          if has_rows s then
            set_orderItems (map (with_removeDisabled b) (orderItems s)) (set_isActivated b s)
          else set_isActivated b s
        else s
    | Rejected _ => s
    end.
Proof.
  unfold fields_after, checkOrderActivationStatus, decorateRows.
  cbv [bind reads assign emit await try_catch ret throw].
  destruct (Js.truthy_str (recordId s)); cbn; destruct o as [b | e]; cbn; try reflexivity.
  change (has_rows (set_isActivated b s)) with (has_rows s).
  destruct (has_rows s); reflexivity.
Qed.

Lemma refreshOrderProducts_settled_fields (o : Outcome unit) (s : State) :
  fields_after (refreshOrderProducts_settled o) s
  = match o with
    | Resolved _ =>
        if has_rows s then
          set_isLoading false
            (set_orderItems (map (with_removeDisabled (isActivated s)) (orderItems s)) s)
        else set_isLoading false s
    | Rejected _ => set_isLoading false s
    end.
Proof.
  unfold fields_after, refreshOrderProducts_settled, decorateRows.
  cbv [bind reads assign try_finally ret throw].
  destruct o as [u | e]; cbn; [ | reflexivity ].
  destruct (has_rows s); reflexivity.
Qed.

Lemma decorated_rows (b : bool) (rows : list OrderLineRow) (row : OrderLineRow) :
  In row (map (with_removeDisabled b) rows) -> removeDisabled row = Some b.
Proof. intros Hin. apply in_map_iff in Hin. now destruct Hin as (r & <- & _). Qed.

Lemma has_rows_false (s : State) : has_rows s = false -> orderItems s = [].
Proof.
  unfold has_rows. intros H. apply negb_false_iff, Z.eqb_eq in H.
  destruct (orderItems s); [ reflexivity | discriminate H ].
Qed.

Lemma follows_wiredOrderItems (result : WireResult) :
  relates (keeps remove_follows_activation) (wiredOrderItems result).
Proof.
  intros s Hs. unfold fields_after. rewrite wiredOrderItems_run.
  destruct (data result) as [rows |]; cbn.
  - intros row Hin. now apply decorated_rows in Hin.
  - destruct (Js.truthy (wire_error result)); cbn; [ intros row [] | exact Hs ].
Qed.

Lemma follows_checkOrderActivationStatus (o : Outcome bool) :
  relates (keeps remove_follows_activation) (checkOrderActivationStatus o).
Proof.
  intros s Hs. rewrite checkOrderActivationStatus_fields.
  destruct o as [b | e]; [ | exact Hs ].
  destruct (Js.truthy_str (recordId s)); [ | exact Hs ].
  destruct (has_rows s) eqn:Hrows.
  - intros row Hin. cbn in *. now apply decorated_rows in Hin.
  - intros row Hin. cbn in Hin. rewrite (has_rows_false s Hrows) in Hin. destruct Hin.
Qed.

Lemma follows_refreshOrderProducts_settled (o : Outcome unit) :
  relates (keeps remove_follows_activation) (refreshOrderProducts_settled o).
Proof.
  intros s Hs. rewrite refreshOrderProducts_settled_fields.
  destruct o as [u | e]; [ | exact Hs ].
  destruct (has_rows s); [ | exact Hs ].
  intros row Hin. cbn in *. now apply decorated_rows in Hin.
Qed.

(** [handleActivateOrder] once its three guards have let it through. *)
Lemma handleActivateOrder_run (o : Outcome (option Apex.Result)) (s : State) :
  Js.truthy_str (recordId s) = true -> isActivated s = false -> orderItems s <> [] ->
  handleActivateOrder o s
  = match o with
    | Resolved (Some r) =>
        if Apex.success r then
          (Js.Normal tt,
           set_isActivating false (set_isActivated true (set_isActivating true s)),
           [Remote (ActivateOrder (recordId s));
            Toast "Success" (Js.of_str (Apex.message r)) "success" "dismissable";
            ReloadPage])
        else
          (Js.Normal tt, set_isActivating false (set_isActivating true s),
           [Remote (ActivateOrder (recordId s));
            Toast "Activation Failed" (Js.of_str (Apex.message r)) "error" "sticky"])
    | Resolved None =>
        (Js.Normal tt, set_isActivating false (set_isActivating true s),
         [Remote (ActivateOrder (recordId s));
          Toast "Error activating order"
                (Js.preferred_message (Js.type_error "null" "success")) "error" "sticky"])
    | Rejected e =>
        (Js.Normal tt, set_isActivating false (set_isActivating true s),
         [Remote (ActivateOrder (recordId s));
          Toast "Error activating order" (Js.preferred_message e) "error" "sticky"])
    end.
Proof.
  intros Hid Hact Hrows.
  unfold handleActivateOrder, of_result, getErrorMessage, showToast, refreshPage.
  cbv [bind reads assign emit lift await try_catch try_finally ret throw].
  assert (Hsome : hasOrderItems s = true).
  { unfold hasOrderItems. destruct (orderItems s); [ contradiction | reflexivity ]. }
  rewrite Hid. cbn. rewrite Hact. cbn. rewrite Hsome. cbn.
  destruct o as [[r |] | e]; cbn.
  - destruct (Apex.success r); reflexivity.
  - reflexivity.
  - rewrite getErrorMessage_preferred. reflexivity.
Qed.

(** [handleActivateOrder] when one of its guards refuses. *)
Lemma handleActivateOrder_refused (o : Outcome (option Apex.Result)) (s : State) :
  Js.truthy_str (recordId s) = false \/ isActivated s = true \/ orderItems s = [] ->
  fields_after (handleActivateOrder o) s = s.
Proof.
  intros Hguard. unfold fields_after, handleActivateOrder, showToast.
  cbv [bind reads emit].
  destruct (Js.truthy_str (recordId s)); cbn; [ | reflexivity ].
  destruct (isActivated s); cbn; [ reflexivity | ].
  destruct Hguard as [H | [H | H]]; try discriminate H.
  unfold hasOrderItems. rewrite H. reflexivity.
Qed.

Lemma follows_handleActivateOrder (o : Outcome (option Apex.Result)) :
  accepted_activation (ActivateOrderClicked o) = false ->
  relates (keeps remove_follows_activation) (handleActivateOrder o).
Proof.
  intros Hno s Hs.
  destruct (Js.truthy_str (recordId s)) eqn:Hid.
  2:{ rewrite (handleActivateOrder_refused o s) by tauto. exact Hs. }
  destruct (isActivated s) eqn:Hact.
  1:{ rewrite (handleActivateOrder_refused o s) by tauto. exact Hs. }
  destruct (orderItems s) as [| row rows] eqn:Hrows.
  1:{ rewrite (handleActivateOrder_refused o s) by tauto. exact Hs. }
  unfold fields_after.
  rewrite handleActivateOrder_run by (try assumption; rewrite Hrows; discriminate).
  destruct o as [[r |] | e]; cbn in Hno |- *; try exact Hs.
  rewrite Hno. exact Hs.
Qed.

(** The Remove flag of the rows follows the activation of the order. It
    does when the component is constructed and after every delivery of the
    wire; every operation keeps it, except a click on Activate that the
    remote accepts: that one sets [isActivated] and leaves the rows as they
    are, so that their Remove buttons stay enabled on the activated order. *)
Theorem remove_flag_follows_activation :
  (forall rid, remove_follows_activation (initial rid))
  /\ (forall s result, data result <> None ->
        remove_follows_activation (step s (WiredOrderItems result)))
  /\ (forall s op, accepted_activation op = false ->
        remove_follows_activation s -> remove_follows_activation (step s op))
  /\ (forall s o, Js.truthy_str (recordId s) = true -> isActivated s = false ->
        orderItems s <> [] -> accepted o = true ->
        isActivated (step s (ActivateOrderClicked o)) = true
        /\ orderItems (step s (ActivateOrderClicked o)) = orderItems s).
Proof.
  repeat apply conj.
  - intros rid row [].
  - intros s result Hdata row. unfold step, fields_after. cbn [perform].
    rewrite wiredOrderItems_run.
    destruct (data result) as [rows |]; [ | contradiction ].
    cbn. apply decorated_rows.
  - intros s op Hop. revert s.
    change (relates (keeps remove_follows_activation) (perform op)).
    destruct op as [o | | | message | result | o | o | name row o | t]; cbn [perform].
    + apply follows_checkOrderActivationStatus.
    + unfold subscribeToMessageChannel. frame ltac:(fields_untouched remove_follows_activation).
    + unfold disconnectedCallback. frame ltac:(fields_untouched remove_follows_activation).
    + unfold handleProductAddedMessage.
      frame ltac:(fields_untouched remove_follows_activation).
    + apply follows_wiredOrderItems.
    + apply follows_refreshOrderProducts_settled.
    + now apply follows_handleActivateOrder.
    + unfold handleRowAction, refreshOrderProducts, refreshCurrentRecordView, getErrorMessage,
        showToast.
      frame ltac:(fields_untouched remove_follows_activation).
    + destruct t; cbn [run_task]; unfold refreshOrderProducts, refreshCurrentRecordView;
        frame ltac:(fields_untouched remove_follows_activation).
  - intros s o Hid Hact Hrows Hok. unfold step, fields_after. cbn [perform].
    rewrite handleActivateOrder_run by assumption.
    destruct o as [[r |] | e]; try discriminate Hok.
    cbn in Hok. rewrite Hok. split; reflexivity.
Qed.

(** An order with one line, delivered by the wire and then activated. *)
Lemma remove_flag_follows_activation_witness :
  let line := {| orderItemId := Some "802xx0001"; removeDisabled := None; others := [] |} in
  let wired := WiredOrderItems {| data := Some [line]; wire_error := Js.JUndefined |} in
  let s := step (initial (Some "801xx0001")) wired in
  let o := Resolved (Some {| Apex.success := true; Apex.message := Some "Order activated";
                             Apex.recordId := None |}) in
  remove_follows_activation s
  /\ isActivated (step s (ActivateOrderClicked o)) = true
  /\ map removeDisabled (orderItems (step s (ActivateOrderClicked o))) = [Some false].
Proof.
  intros line wired s o.
  split; [ | split ].
  - apply (proj1 (proj2 remove_flag_follows_activation)). discriminate.
  - apply (proj2 (proj2 (proj2 remove_flag_follows_activation)) s o);
      [ reflexivity | reflexivity | discriminate | reflexivity ].
  - reflexivity.
Defined.

(** A click on Activate that passes the guards makes the remote call once
    and, whatever comes back, ends with [isActivating] off and the rows as
    they were. The order counts as activated, and the page is reloaded,
    exactly when the remote reports success; otherwise one sticky error
    toast is all that follows the call. *)
Theorem activation_outcome
    (s : State) (o : Outcome (option Apex.Result))
    (Hid : Js.truthy_str (recordId s) = true)
    (Hact : isActivated s = false)
    (Hrows : orderItems s <> []) :
  let s' := fields_after (handleActivateOrder o) s in
  let log := effects_of (handleActivateOrder o) s in
  isActivated s' = accepted o
  /\ isActivating s' = false
  /\ orderItems s' = orderItems s
  /\ remote_calls log = [ActivateOrder (recordId s)]
  /\ (In ReloadPage log <-> accepted o = true)
  /\ (accepted o = false ->
      exists title message,
        log = [Remote (ActivateOrder (recordId s)); Toast title message "error" "sticky"]).
Proof.
  unfold fields_after, effects_of. rewrite handleActivateOrder_run by assumption.
  assert (Hno : forall title message,
             In ReloadPage [Remote (ActivateOrder (recordId s));
                            Toast title message "error" "sticky"] <-> false = true).
  { intros title message. split; [ | intros H; discriminate H ].
    intros [H | [H | []]]; discriminate H. }
  destruct o as [[r |] | e]; cbn [accepted];
    [ destruct (Apex.success r) | | ]; cbn [fst snd];
    (split; [ first [ reflexivity | exact Hact ] | ]);
    (split; [ reflexivity | ]); (split; [ reflexivity | ]); (split; [ reflexivity | ]);
    (split; [ try apply Hno | ]); try solve [ intros _; eauto ].
  - split; [ intros _; reflexivity | intros _; cbn; tauto ].
  - intros H; discriminate H.
Qed.

(** An order with one line, and a remote that refuses the activation. *)
Lemma activation_outcome_witness :
  let line := {| orderItemId := Some "802xx0001"; removeDisabled := Some false;
                 others := [] |} in
  let s := set_orderItems [line] (initial (Some "801xx0001")) in
  let o := Resolved (Some {| Apex.success := false;
                             Apex.message := Some "Order has no billing address";
                             Apex.recordId := None |}) in
  isActivated (fields_after (handleActivateOrder o) s) = false.
Proof.
  intros line s o.
  apply (activation_outcome s o); [ reflexivity | reflexivity | discriminate ].
Defined.

(** Outside an activation in flight, and with the order id present, the
    handler refuses a click exactly when the Activate button is disabled:
    then it makes no remote call, and otherwise it makes one. *)
Theorem activate_button_matches_guard
    (s : State) (o : Outcome (option Apex.Result))
    (Hid : Js.truthy_str (recordId s) = true)
    (Hidle : isActivating s = false) :
  (isActivateButtonDisabled s = true ->
     remote_calls (effects_of (handleActivateOrder o) s) = []
     /\ fields_after (handleActivateOrder o) s = s)
  /\ (isActivateButtonDisabled s = false ->
     remote_calls (effects_of (handleActivateOrder o) s) = [ActivateOrder (recordId s)]).
Proof.
  unfold isActivateButtonDisabled. rewrite Hidle. cbn [orb].
  destruct (isActivated s) eqn:Hact; cbn [orb].
  - split; [ intros _ | intros H; discriminate H ].
    split; [ | apply handleActivateOrder_refused; tauto ].
    unfold effects_of, handleActivateOrder, showToast. cbv [bind reads emit].
    rewrite Hid. cbn. rewrite Hact. reflexivity.
  - unfold hasOrderItems. destruct (orderItems s) as [| row rows] eqn:Hrows; cbn.
    + split; [ intros _ | intros H; discriminate H ].
      split; [ | apply handleActivateOrder_refused; tauto ].
      unfold effects_of, handleActivateOrder, showToast. cbv [bind reads emit].
      rewrite Hid. cbn. rewrite Hact. cbn. unfold hasOrderItems. rewrite Hrows. reflexivity.
    + split; [ intros H; discriminate H | intros _ ].
      unfold effects_of.
      rewrite handleActivateOrder_run by (try assumption; rewrite Hrows; discriminate).
      destruct o as [[r |] | e]; [ destruct (Apex.success r) | | ]; reflexivity.
Qed.

(** An order with one line, not activated: the button is enabled. *)
Lemma activate_button_matches_guard_witness :
  let line := {| orderItemId := Some "802xx0001"; removeDisabled := Some false;
                 others := [] |} in
  let s := set_orderItems [line] (initial (Some "801xx0001")) in
  isActivateButtonDisabled s = false
  /\ remote_calls (effects_of (handleActivateOrder (Rejected Js.JNull)) s)
     = [ActivateOrder (Some "801xx0001")].
Proof.
  intros line s. split; [ reflexivity | ].
  apply (proj2 (activate_button_matches_guard s (Rejected Js.JNull) eq_refl eq_refl)).
  reflexivity.
Defined.

(** [handleRowAction] for a remove on an order that is not activated. *)
Lemma remove_run (row : OrderLineRow) (o : Outcome (option Apex.Result)) (s : State) :
  isActivated s = false ->
  handleRowAction "remove" row o s
  = (Js.Normal tt, set_isLoading false s,
     Remote (RemoveOrderItem (orderItemId row))
     :: match o with
        | Resolved (Some r) =>
            if Apex.success r then
              Toast "Success" (Js.of_str (Apex.message r)) "success" "dismissable"
              :: match wiredOrderItemsResult s with
                 | Some w => [Remote (RefreshApex w); Navigate (recordId s)]
                 | None => [Navigate (recordId s)]
                 end
            else [Toast "Error" (Js.of_str (Apex.message r)) "error" "sticky"]
        | Resolved None => [Toast "Error" (Js.JStr "Unable to remove product") "error" "sticky"]
        | Rejected e =>
            [Toast "Error removing product" (Js.preferred_message e) "error" "sticky"]
        end).
Proof.
  intros Hact.
  unfold handleRowAction, refreshOrderProducts, refreshCurrentRecordView, getErrorMessage,
    showToast.
  cbv [bind reads assign emit lift await try_catch try_finally ret throw].
  cbn. rewrite Hact.
  destruct o as [[r |] | e]; cbn.
  - destruct (Apex.success r); cbn; [ | reflexivity ].
    destruct (wiredOrderItemsResult s); reflexivity.
  - reflexivity.
  - rewrite getErrorMessage_preferred. reflexivity.
Qed.

(** A remove on an order that is not activated asks the remote to remove
    the row's order item, once. When the remote reports success the wire
    is refreshed, if it has delivered before, and the record page is
    navigated to; otherwise one sticky error toast follows and nothing is
    refreshed. Either way the rows are as they were (they change when the
    wire delivers again) and [isLoading] is off at the end, refresh
    pending or not. *)
Theorem remove_outcome
    (s : State) (row : OrderLineRow) (o : Outcome (option Apex.Result))
    (Hact : isActivated s = false) :
  let s' := fields_after (handleRowAction "remove" row o) s in
  let log := effects_of (handleRowAction "remove" row o) s in
  s' = set_isLoading false s
  /\ orderItems s' = orderItems s
  /\ hd_error (remote_calls log) = Some (RemoveOrderItem (orderItemId row))
  /\ (accepted o = true ->
      In (Navigate (recordId s)) log
      /\ tl (remote_calls log)
         = match wiredOrderItemsResult s with
           | Some w => [RefreshApex w]
           | None => []
           end)
  /\ (accepted o = false ->
      exists title message,
        log = [Remote (RemoveOrderItem (orderItemId row));
               Toast title message "error" "sticky"]).
Proof.
  unfold fields_after, effects_of. rewrite (remove_run row o s Hact). cbn [fst snd].
  repeat apply conj; try reflexivity.
  - intros Hok. destruct o as [[r |] | e]; try discriminate Hok.
    cbn in Hok. rewrite Hok.
    destruct (wiredOrderItemsResult s); cbn; split; try reflexivity; tauto.
  - intros Hno. destruct o as [[r |] | e]; cbn in Hno; [ rewrite Hno | | ]; eauto.
Qed.

(** Removing the only line of an order whose rows the wire has delivered. *)
Lemma remove_outcome_witness :
  let line := {| orderItemId := Some "802xx0001"; removeDisabled := Some false;
                 others := [] |} in
  let wired := {| data := Some [line]; wire_error := Js.JUndefined |} in
  let s := step (initial (Some "801xx0001")) (WiredOrderItems wired) in
  let o := Resolved (Some {| Apex.success := true; Apex.message := Some "Removed";
                             Apex.recordId := None |}) in
  map orderItemId (orderItems (fields_after (handleRowAction "remove" line o) s))
  = [Some "802xx0001"]
  /\ isLoading (fields_after (handleRowAction "remove" line o) s) = false.
Proof.
  intros line wired s o.
  destruct (remove_outcome s line o eq_refl) as (Hs & Hrows & _).
  split; [ now rewrite Hrows | now rewrite Hs ].
Defined.

End OrderRows.

(* ===================================================================== *)
(** ** The wire and the message channel                                   *)
(* ===================================================================== *)

#[local] Instance unchanged_preorder (S X : Type) (f : S -> X) : PreOrder (Method.unchanged f).
Proof.
  split.
  - intros s. reflexivity.
  - intros a b c Hab Hbc. unfold Method.unchanged in *. congruence.
Qed.

Section Channel.
Import Method OrderProducts.

(** What the wire delivers decides the rows: data replaces them, each row
    with its fields kept and the Remove flag set from the activation, and
    clears the error; an error without data clears them, is stored as a
    message and shown in one sticky toast; a delivery with neither leaves
    rows and error as they are. The delivery itself is always kept for
    [refreshApex]. *)
Theorem wire_delivery (s : State) (result : WireResult) :
  let s' := fields_after (wiredOrderItems result) s in
  let log := effects_of (wiredOrderItems result) s in
  wiredOrderItemsResult s' = Some result
  /\ isActivated s' = isActivated s
  /\ (forall rows, data result = Some rows ->
        orderItems s' = map (with_removeDisabled (isActivated s)) rows
        /\ map orderItemId (orderItems s') = map orderItemId rows
        /\ map others (orderItems s') = map others rows
        /\ error s' = Js.JUndefined /\ log = [])
  /\ (data result = None -> Js.truthy (wire_error result) = true ->
        orderItems s' = []
        /\ error s' = Js.preferred_message (wire_error result)
        /\ log = [Toast "Error loading order products"
                        (Js.preferred_message (wire_error result)) "error" "sticky"])
  /\ (data result = None -> Js.truthy (wire_error result) = false ->
        orderItems s' = orderItems s /\ error s' = error s /\ log = []).
Proof.
  unfold fields_after, effects_of. rewrite wiredOrderItems_run.
  destruct (data result) as [rows |] eqn:Hdata.
  - cbn. repeat apply conj; try reflexivity; try (intros H; discriminate H).
    intros rows' Heq. injection Heq as <-.
    rewrite !map_map. cbn. repeat split.
  - destruct (Js.truthy (wire_error result)) eqn:Herr; cbn;
      repeat apply conj; try reflexivity; try (intros rows H; discriminate H);
      try (intros _ H; discriminate H); intros _ _; repeat split.
Qed.

(** The wire delivers an error after it had delivered one line. *)
Lemma wire_delivery_witness :
  let line := {| orderItemId := Some "802xx0001"; removeDisabled := None; others := [] |} in
  let s := step (initial (Some "801xx0001"))
             (WiredOrderItems {| data := Some [line]; wire_error := Js.JUndefined |}) in
  let failed := {| data := None;
                   wire_error := Js.JObj [("message", Js.JStr "Insufficient access")] |} in
  map removeDisabled (orderItems s) = [Some false]
  /\ orderItems (fields_after (wiredOrderItems failed) s) = []
  /\ error (fields_after (wiredOrderItems failed) s) = Js.JStr "Insufficient access".
Proof.
  intros line s failed. split; [ reflexivity | ].
  destruct (proj1 (proj2 (proj2 (proj2 (wire_delivery s failed)))) eq_refl eq_refl)
    as (Hrows & Herror & _).
  split; [ exact Hrows | exact Herror ].
Defined.

(** A refresh from start to end. With a delivery of the wire to refresh,
    [refreshOrderProducts] turns the spinner on and calls [refreshApex]
    with it; when the wire has then delivered the new rows and the promise
    is fulfilled, the view shows the new rows, flagged from the
    activation, with the spinner off. Without a delivery to refresh,
    nothing happens at all. *)
Theorem refresh_cycle_shows_new_rows (s : State) :
  (wiredOrderItemsResult s = None -> refreshOrderProducts s = (Js.Normal tt, s, []))
  /\ (forall w rows error,
      wiredOrderItemsResult s = Some w ->
      let fresh := {| data := Some rows; wire_error := error |} in
      let s' := run [RunTask RefreshOrderProducts; WiredOrderItems fresh;
                     RefreshSettled (Resolved tt)] s in
      trace [RunTask RefreshOrderProducts] s = [Remote (RefreshApex w)]
      /\ isLoading (step s (RunTask RefreshOrderProducts)) = true
      /\ orderItems s' = map (with_removeDisabled (isActivated s)) rows
      /\ isLoading s' = false
      /\ wiredOrderItemsResult s' = Some fresh
      /\ isActivated s' = isActivated s).
Proof.
  split.
  - intros Hnone. unfold refreshOrderProducts. cbv [bind reads ret]. now rewrite Hnone.
  - intros w rows error Hwired fresh s'. subst s'.
    assert (Hstart : refreshOrderProducts s
                     = (Js.Normal tt, set_isLoading true s, [Remote (RefreshApex w)])).
    { unfold refreshOrderProducts. cbv [bind reads assign emit]. now rewrite Hwired. }
    assert (Hfirst : step s (RunTask RefreshOrderProducts) = set_isLoading true s).
    { unfold step, fields_after. cbn [perform run_task]. now rewrite Hstart. }
    assert (Hsecond : step (set_isLoading true s) (WiredOrderItems fresh)
                      = set_error Js.JUndefined
                          (set_orderItems (map (with_removeDisabled (isActivated s)) rows)
                             (set_wiredOrderItemsResult (Some fresh) (set_isLoading true s)))).
    { unfold step, fields_after. cbn [perform]. now rewrite wiredOrderItems_run. }
    unfold run, trace. cbn [fold_left]. rewrite Hfirst, Hsecond.
    unfold effects_of. cbn [perform run_task]. rewrite Hstart.
    unfold step, fields_after at 1. cbn [perform].
    change (snd (fst (refreshOrderProducts_settled (Resolved tt) ?x)))
      with (fields_after (refreshOrderProducts_settled (Resolved tt)) x).
    rewrite refreshOrderProducts_settled_fields.
    match goal with |- context [has_rows ?x] => destruct (has_rows x) end;
      repeat apply conj; try reflexivity.
    cbn. rewrite map_map. apply map_ext. now intros [id flag rest].
Qed.

(** The order gets a second line while its view shows the first. *)
Lemma refresh_cycle_shows_new_rows_witness :
  let line k := {| orderItemId := Some k; removeDisabled := None; others := [] |} in
  let s := step (initial (Some "801xx0001"))
             (WiredOrderItems {| data := Some [line "802xx0001"];
                                 wire_error := Js.JUndefined |}) in
  let fresh := {| data := Some [line "802xx0001"; line "802xx0002"];
                  wire_error := Js.JUndefined |} in
  map orderItemId
      (orderItems (run [RunTask RefreshOrderProducts; WiredOrderItems fresh;
                        RefreshSettled (Resolved tt)] s))
  = [Some "802xx0001"; Some "802xx0002"].
Proof.
  intros line s fresh.
  destruct (proj2 (refresh_cycle_shows_new_rows s)
              {| data := Some [line "802xx0001"]; wire_error := Js.JUndefined |}
              [line "802xx0001"; line "802xx0002"] Js.JUndefined eq_refl)
    as (_ & _ & Hrows & _).
  fold fresh in Hrows. rewrite Hrows. reflexivity.
Defined.

Lemma subscription_perform (op : Op) :
  match op with
  | SubscribeToMessageChannel | Disconnected => True
  | _ => relates (unchanged subscription) (perform op)
         /\ emits leaves_subscription (perform op)
  end.
Proof.
  destruct op as [o | | | message | result | o | o | name row o | t]; cbn [perform];
    try exact I; try (destruct t; cbn [run_task]);
    (split;
     [ unfold checkOrderActivationStatus, handleProductAddedMessage, wiredOrderItems,
         refreshOrderProducts_settled, handleActivateOrder, handleRowAction,
         refreshOrderProducts, refreshCurrentRecordView, refreshPage, decorateRows, of_result,
         getErrorMessage, showToast;
       frame ltac:(reflexivity)
     | unfold checkOrderActivationStatus, handleProductAddedMessage, wiredOrderItems,
         refreshOrderProducts_settled, handleActivateOrder, handleRowAction,
         refreshOrderProducts, refreshCurrentRecordView, refreshPage, decorateRows, of_result,
         getErrorMessage, showToast;
       effects ltac:(exact I) ]).
Qed.

Lemma open_subscriptions_app (log log' : list Effect) :
  open_subscriptions (log ++ log') = open_subscriptions log + open_subscriptions log'.
Proof.
  induction log as [| e log IH]; cbn [app open_subscriptions]; [ lia | ].
  destruct e; rewrite ?IH; lia.
Qed.

Lemma open_subscriptions_none (log : list Effect) :
  Forall leaves_subscription log -> open_subscriptions log = 0.
Proof.
  induction 1 as [| e log He _ IH]; [ reflexivity | ].
  destruct e; cbn in *; try contradiction; assumption.
Qed.

Lemma subscription_step (s : State) (op : Op) :
  open_subscriptions (effects_of (perform op) s)
  = held_subscriptions (step s op) - held_subscriptions s.
Proof.
  pose proof (subscription_perform op) as Hop.
  destruct op;
    try (rewrite (open_subscriptions_none _ (proj2 Hop s));
         unfold held_subscriptions, step; rewrite (proj1 Hop s); lia).
  - unfold effects_of, step, fields_after, held_subscriptions. cbn [perform].
    unfold subscribeToMessageChannel. cbv [bind reads emit assign ret].
    destruct (subscription s) eqn:Hsub; cbn; rewrite ?Hsub; reflexivity.
  - unfold effects_of, step, fields_after, held_subscriptions. cbn [perform].
    unfold disconnectedCallback. cbv [bind reads emit assign ret].
    destruct (subscription s) eqn:Hsub; cbn; rewrite ?Hsub; reflexivity.
Qed.

(** Along every sequence of operations, the subscriptions opened and not
    closed again are those the view holds at the end less those it held at
    the start. From its construction on, the view holds none or one, as
    its [subscription] field says: it never subscribes twice, and never
    unsubscribes without a subscription. *)
Theorem at_most_one_subscription :
  (forall ops s,
      open_subscriptions (trace ops s)
      = held_subscriptions (run ops s) - held_subscriptions s)
  /\ (forall ops rid,
      open_subscriptions (trace ops (initial rid))
      = held_subscriptions (run ops (initial rid))
      /\ 0 <= open_subscriptions (trace ops (initial rid)) <= 1).
Proof.
  assert (Hrun : forall ops s,
             open_subscriptions (trace ops s)
             = held_subscriptions (run ops s) - held_subscriptions s).
  { induction ops as [| op ops IH]; intros s; cbn [trace run fold_left]; [ cbn; lia | ].
    rewrite open_subscriptions_app, subscription_step.
    specialize (IH (step s op)). unfold run in IH. lia. }
  split; [ exact Hrun | ].
  intros ops rid. rewrite Hrun. cbn.
  unfold held_subscriptions. destruct (subscription (run ops (initial rid))); lia.
Qed.

(** The component is connected twice and disconnected once in between. *)
Lemma at_most_one_subscription_witness :
  let ops := [SubscribeToMessageChannel; SubscribeToMessageChannel; Disconnected;
              Disconnected; SubscribeToMessageChannel] in
  trace ops (initial (Some "801xx0001")) = [Subscribe; Unsubscribe; Subscribe]
  /\ open_subscriptions (trace ops (initial (Some "801xx0001"))) = 1.
Proof.
  intros ops. split; [ reflexivity | ].
  rewrite (proj1 at_most_one_subscription). reflexivity.
Defined.

End Channel.

(* ===================================================================== *)
(** ** The Product List View: checks, guards and messages                 *)
(* ===================================================================== *)

Section ProductActions.
Import Method AvailableProducts.
Context {strings : Js.StringPrototype}.

(** An activation check sets the Add button of every row from the answer
    alone: with a catalog loaded and the order id present, an answer [b]
    leaves every row of the catalog and of the filtered rows with
    [disableAdd = b], rows marked as added included, and every other field
    of the rows as it was. A rejected check is logged and changes nothing;
    without an order id no call is made. *)
Theorem activation_check_sets_add_buttons (s : State) :
  (forall b, Js.truthy_str (recordId s) = true -> products s <> [] ->
      let s' := fields_after (checkActivation (Resolved b)) s in
      isActivated s' = b
      /\ products s' = map (with_disableAdd b) (products s)
      /\ filteredProducts s' = map (with_disableAdd b) (filteredProducts s)
      /\ (forall row, In row (products s' ++ filteredProducts s') -> disableAdd row = Some b)
      /\ map statusLabel (products s') = map statusLabel (products s)
      /\ map isAddedToOrder (products s') = map isAddedToOrder (products s))
  /\ (forall e, Js.truthy_str (recordId s) = true ->
      checkActivation (Rejected e) s
      = (Js.Normal tt, s,
         [Remote (IsOrderActivated (recordId s));
          ConsoleError "Error checking activation:" e]))
  /\ (forall o, Js.truthy_str (recordId s) = false ->
      checkActivation o s = (Js.Normal tt, s, [])).
Proof.
  repeat apply conj.
  - intros b Hid Hrows s'. subst s'. rewrite checkActivation_fields, Hid.
    destruct (Z.eqb_spec (Z.of_nat (List.length (products s))) 0) as [Hzero | Hsome].
    { now apply length_zero_nil in Hzero. }
    cbn. repeat apply conj; try reflexivity.
    + intros row Hin. rewrite <- map_app in Hin. apply in_map_iff in Hin.
      now destruct Hin as (p & <- & _).
    + now rewrite map_map.
    + now rewrite map_map.
  - intros e Hid. unfold checkActivation.
    cbv [bind reads assign emit await try_catch ret throw]. rewrite Hid. reflexivity.
  - intros o Hid. unfold checkActivation. cbv [bind reads ret]. rewrite Hid. reflexivity.
Qed.

(** Product B of the catalog is marked as added, and a check then answers
    that the order is not activated: the row keeps its label and its Add
    button is enabled again. *)
Lemma activation_check_sets_add_buttons_witness :
  let s := fields_after (markProductAsAdded (Some "01tB")) Samples.loaded in
  let s' := fields_after (checkActivation (Resolved false)) s in
  map disableAdd (firstn 2 (products s)) = [Some false; Some true]
  /\ map disableAdd (firstn 2 (products s')) = [Some false; Some false]
  /\ map statusLabel (firstn 2 (products s')) = [None; Some "✓ Added"].
Proof.
  intros s s'. split; [ reflexivity | ].
  destruct (proj1 (activation_check_sets_add_buttons s) false eq_refl ltac:(discriminate))
    as (_ & Hrows & _).
  fold s' in Hrows. rewrite Hrows. split; reflexivity.
Defined.

(** [handleAddProduct] asks for the product id and the order id and for
    nothing else: with one of them missing it shows one sticky toast, makes
    no remote call and changes no field; with both present its first effect
    is the remote add, whether or not the order is activated.
    [handleAddExternalProduct] does the same for the row and the order id. *)
Theorem add_guarded_by_ids_only
    (s : State) (o : Outcome (option Apex.Result))
    (reload : Outcome (option (list ProductRow))) :
  (forall pid, Js.truthy_str pid && Js.truthy_str (recordId s) = false ->
      handleAddProduct pid o reload s
      = (Js.Normal tt, s,
         [Toast "Error" (Js.JStr "Missing product or order information") "error" "sticky"]))
  /\ (forall pid, Js.truthy_str pid && Js.truthy_str (recordId s) = true ->
      hd_error (effects_of (handleAddProduct pid o reload) s)
      = Some (Remote (AddProductToOrder (recordId s) pid)))
  /\ (forall product,
      match product with Some _ => Js.truthy_str (recordId s) | None => false end = false ->
      handleAddExternalProduct product o reload s
      = (Js.Normal tt, s,
         [Toast "Error" (Js.JStr "Missing order or product information") "error" "sticky"]))
  /\ (forall row, Js.truthy_str (recordId s) = true ->
      hd_error (effects_of (handleAddExternalProduct (Some row) o reload) s)
      = Some (Remote (AddExternalProductToOrder (recordId s) row))).
Proof.
  repeat apply conj.
  - intros pid Hmissing. unfold handleAddProduct, showToast. cbv [bind reads emit].
    cbn. rewrite <- negb_andb, Hmissing. reflexivity.
  - intros pid Hboth. apply andb_prop in Hboth. destruct Hboth as [Hpid Hid].
    unfold effects_of, handleAddProduct, of_result, showToast, getErrorMessage,
      loadProducts, transformProductData, applyFilters, markProductAsAdded,
      dispatchProductAddedEvent.
    cbv [bind reads assign emit lift await try_catch try_finally ret throw].
    rewrite Hpid, Hid. cbn.
    destruct o as [[r |] | e]; cbn; [ destruct (Apex.success r) eqn:Hok | | ]; cbn;
      rewrite ?Hok; cbn; try reflexivity.
    + destruct reload as [[rows |] | e]; cbn; rewrite ?getErrorMessage_preferred; reflexivity.
    + rewrite ?getErrorMessage_preferred. reflexivity.
  - intros [row |] Hmissing; unfold handleAddExternalProduct, showToast;
      cbv [bind reads emit]; cbn; [ rewrite Hmissing | ]; reflexivity.
  - intros row Hid.
    unfold effects_of, handleAddExternalProduct, showToast, getErrorMessage,
      loadProducts, transformProductData, applyFilters, markProductAsAdded,
      dispatchProductAddedEvent.
    cbv [bind reads assign emit lift await try_catch try_finally ret throw].
    rewrite Hid. cbn.
    destruct o as [[r |] | e]; cbn; [ destruct (Apex.success r) eqn:Hok | | ]; cbn;
      rewrite ?Hok; cbn; try reflexivity.
    + destruct reload as [[rows |] | e]; cbn; rewrite ?getErrorMessage_preferred; reflexivity.
    + rewrite ?getErrorMessage_preferred. reflexivity.
Qed.

(** A successful add, local or external, publishes one message, whatever
    the reload that goes with it settles to; the message names the view's
    order, and an Order Line View that receives it schedules its reload
    and its refresh exactly when it is the view of that order. *)
Theorem published_event_reaches_own_order_view
    (s : State) (r : Apex.Result) (reload : Outcome (option (list ProductRow)))
    (Hid : Js.truthy_str (recordId s) = true)
    (Hok : Apex.success r = true) :
  (forall pid, Js.truthy_str pid = true ->
      published (effects_of (handleAddProduct pid (Resolved (Some r)) reload) s)
      = [ {| Channel.productId := pid; Channel.orderItemId := Apex.recordId r;
             Channel.orderId := recordId s |} ])
  /\ (forall row,
      published (effects_of (handleAddExternalProduct (Some row) (Resolved (Some r)) reload) s)
      = [ {| Channel.productId := Js.or_str (productId row) (productCode row);
             Channel.orderItemId := Apex.recordId r;
             Channel.orderId := recordId s |} ])
  /\ (forall pid item (t : OP.State),
      effects_of (OP.handleProductAddedMessage
                    (Some {| Channel.productId := pid; Channel.orderItemId := item;
                             Channel.orderId := recordId s |})) t
      = if strict_eq (recordId s) (OP.recordId t)
        then [OP.SetTimeout OP.RefreshOrderProducts 0;
              OP.SetTimeout OP.RefreshCurrentRecordView 400]
        else []).
Proof.
  repeat apply conj.
  - intros pid Hpid.
    unfold effects_of, handleAddProduct, of_result, showToast, getErrorMessage,
      loadProducts, transformProductData, applyFilters, markProductAsAdded,
      dispatchProductAddedEvent.
    cbv [bind reads assign emit lift await try_catch try_finally ret throw].
    rewrite Hpid, Hid. cbn. rewrite Hok. cbn.
    destruct reload as [[rows |] | e]; cbn; rewrite ?getErrorMessage_preferred; reflexivity.
  - intros row.
    unfold effects_of, handleAddExternalProduct, showToast, getErrorMessage,
      loadProducts, transformProductData, applyFilters, markProductAsAdded,
      dispatchProductAddedEvent.
    cbv [bind reads assign emit lift await try_catch try_finally ret throw].
    rewrite Hid. cbn. rewrite Hok. cbn.
    destruct reload as [[rows |] | e]; cbn; rewrite ?getErrorMessage_preferred; reflexivity.
  - intros pid item t. unfold effects_of, OP.handleProductAddedMessage.
    cbv [bind reads emit ret]. cbn.
    destruct (strict_eq (recordId s) (OP.recordId t)); reflexivity.
Qed.

End ProductActions.

(* ===================================================================== *)
(** ** Turning pages and the record counter                               *)
(* ===================================================================== *)

Section Counter.
Import Method AvailableProducts.
Context {strings : Js.StringPrototype}.

Lemma at_current_page (s : State) : at_page (currentPage s) s = s.
Proof. now destruct s. Qed.

Lemma page_starts_inside (s : State) :
  page_in_range s -> 0 < totalRecords s ->
  (currentPage s - 1) * pageSize s < totalRecords s.
Proof.
  intros [HP Hrange] Hsome. unfold totalRecords, totalPages in *.
  destruct (Z.eqb_spec (Z.of_nat (List.length (filteredProducts s))) 0) as [H0 | H0];
    cbn [negb] in Hrange; [ lia | ].
  pose proof (ceil_div_bounds (Z.of_nat (List.length (filteredProducts s))) (pageSize s) HP).
  nia.
Qed.

(** The counter under the table names the rows on the page. With the page
    in range and rows to show, [startRecord] and [endRecord] are the
    positions, counted from 1, of the first and the last row of
    [pagedProducts] in the filtered rows, so the page holds
    [endRecord - startRecord + 1] rows, at least one and at most
    [pageSize]; with no rows both are 0 and the page is empty. *)
Theorem record_counter_names_the_page (s : State) (Hrange : page_in_range s) :
  (totalRecords s = 0 ->
     startRecord s = 0 /\ endRecord s = 0 /\ pagedProducts s = [])
  /\ (0 < totalRecords s ->
     1 <= startRecord s <= endRecord s
     /\ endRecord s <= totalRecords s
     /\ Z.of_nat (List.length (pagedProducts s)) = endRecord s - startRecord s + 1
     /\ Z.of_nat (List.length (pagedProducts s)) <= pageSize s
     /\ (forall j, 0 <= j <= endRecord s - startRecord s ->
           nth_error (pagedProducts s) (Z.to_nat j)
           = nth_error (filteredProducts s) (Z.to_nat (startRecord s - 1 + j)))).
Proof.
  pose proof Hrange as [HP Hpage].
  assert (Hwindow : pagedProducts s
                    = firstn (Z.to_nat (pageSize s))
                        (skipn (Z.to_nat ((currentPage s - 1) * pageSize s))
                           (filteredProducts s))).
  { rewrite <- (at_current_page s) at 1. apply pagedProducts_window; lia. }
  split.
  - intros Hnone. unfold startRecord, endRecord. rewrite Hnone. cbn.
    repeat split. rewrite Hwindow.
    unfold totalRecords in Hnone. apply length_zero_nil in Hnone. rewrite Hnone.
    now rewrite skipn_nil, firstn_nil.
  - intros Hsome. pose proof (page_starts_inside s Hrange Hsome) as Hinside.
    assert (Hlen : Z.of_nat (List.length (pagedProducts s))
                   = Z.min (pageSize s) (totalRecords s - (currentPage s - 1) * pageSize s)).
    { rewrite Hwindow, length_firstn, length_skipn. unfold totalRecords in *. nia. }
    unfold startRecord, endRecord in *.
    destruct (Z.eqb_spec (totalRecords s) 0) as [H0 | _]; [ lia | ].
    destruct (Z.ltb_spec (totalRecords s) (currentPage s * pageSize s)).
    + repeat apply conj; try nia.
      intros j Hj. rewrite Hwindow, nth_error_firstn, nth_error_skipn.
      destruct (Nat.ltb_spec (Z.to_nat j) (Z.to_nat (pageSize s))); [ | nia ].
      f_equal. nia.
    + repeat apply conj; try nia.
      intros j Hj. rewrite Hwindow, nth_error_firstn, nth_error_skipn.
      destruct (Nat.ltb_spec (Z.to_nat j) (Z.to_nat (pageSize s))); [ | nia ].
      f_equal. nia.
Qed.

(** Page 3 of the catalog of 25 rows shows records 21 to 25. *)
Lemma record_counter_names_the_page_witness :
  let s := at_page 3 Samples.loaded in
  page_in_range s /\ startRecord s = 21 /\ endRecord s = 25
  /\ Z.of_nat (List.length (pagedProducts s)) = endRecord s - startRecord s + 1.
Proof.
  intros s.
  assert (Hrange : page_in_range s) by (unfold page_in_range; cbn; lia).
  split; [ exact Hrange | split; [ reflexivity | split; [ reflexivity | ] ] ].
  apply (proj2 (record_counter_names_the_page s Hrange)). reflexivity.
Defined.

Lemma bind_run {S E A B} (m : M S E A) (k : A -> M S E B)
    (s s1 s2 : S) (a : A) (c : Js.completion B) (log2 : list E) :
  m s = (Js.Normal a, s1, []) -> k a s1 = (c, s2, log2) -> bind m k s = (c, s2, log2).
Proof. intros Hm Hk. unfold bind. now rewrite Hm, Hk. Qed.

Lemma handlePrevPage_after_first (s : State) :
  currentPage s <> 1 ->
  handlePrevPage s = (Js.Normal tt, set_currentPage (currentPage s - 1) s, []).
Proof.
  intros Hmore. unfold handlePrevPage. cbv [bind reads assign ret].
  unfold isFirstPage. destruct (Z.eqb_spec (currentPage s) 1); [ contradiction | ].
  reflexivity.
Qed.

Lemma set_currentPage_back (p q : Z) (s : State) :
  p = currentPage s -> set_currentPage p (set_currentPage q s) = s.
Proof. intros ->. now destruct s. Qed.

(** Turning forth and back, and back and forth, comes back to the same
    state: [handlePrevPage] undoes [handleNextPage] wherever there is a
    next page, and [handleNextPage] undoes [handlePrevPage] wherever there
    is a previous one; neither has any effect on the platform. *)
Theorem page_turns_undo_each_other (s : State) (Hrange : page_in_range s) :
  (isLastPage s = false ->
     (handleNextPage ;; handlePrevPage)%method s = (Js.Normal tt, s, []))
  /\ (isFirstPage s = false ->
     (handlePrevPage ;; handleNextPage)%method s = (Js.Normal tt, s, [])).
Proof.
  destruct Hrange as [HP Hpage]. split; intros Hturn.
  - apply Z.leb_gt in Hturn.
    eapply bind_run; [ exact (handleNextPage_before_last s Hturn) | ].
    rewrite handlePrevPage_after_first by (cbn; lia).
    cbn [currentPage set_currentPage]. now rewrite set_currentPage_back by lia.
  - apply Z.eqb_neq in Hturn.
    eapply bind_run; [ exact (handlePrevPage_after_first s Hturn) | ].
    rewrite handleNextPage_before_last
      by (cbn [currentPage set_currentPage];
          change (totalPages (set_currentPage (currentPage s - 1) s)) with (totalPages s);
          lia).
    cbn [currentPage set_currentPage]. now rewrite set_currentPage_back by lia.
Qed.

(** Page 2 of 3 of the catalog of 25 rows. *)
Lemma page_turns_undo_each_other_witness :
  let s := at_page 2 Samples.loaded in
  fields_after (handleNextPage ;; handlePrevPage)%method s = s
  /\ fields_after (handlePrevPage ;; handleNextPage)%method s = s.
Proof.
  intros s.
  assert (Hrange : page_in_range s) by (unfold page_in_range; cbn; lia).
  destruct (page_turns_undo_each_other s Hrange) as [Hforth Hback].
  unfold fields_after. rewrite (Hforth eq_refl), (Hback eq_refl). split; reflexivity.
Defined.

End Counter.

(* ===================================================================== *)
(** ** Refining a search                                                  *)
(* ===================================================================== *)






Section Refining.
Import Method AvailableProducts.
Context {strings : Js.StringPrototype}.



End Refining.

(* ===================================================================== *)
(** ** The theorems at work                                               *)
(* ===================================================================== *)

(** The theorems applied to views of order 801xx0001, with the lower case
    of the strings of the Product List View computed by
    [Js.ascii_strings]. *)
Section Examples.
Import Method AvailableProducts.
#[local] Existing Instance Js.ascii_strings.

(** An order with one line: the line is delivered, the order is activated,
    then a message arrives, a remove is attempted and the status is checked
    again with the answer [true]. *)
Lemma activation_kept_unless_check_answers_false_witness :
  let line := {| OP.orderItemId := Some "802xx0001"; OP.removeDisabled := None;
                 OP.others := [] |} in
  let accepted := Method.Resolved
                    (Some {| Apex.success := true; Apex.message := Some "Order activated";
                             Apex.recordId := None |}) in
  let s := OP.run [OP.WiredOrderItems {| OP.data := Some [line]; OP.wire_error := Js.JUndefined |};
                   OP.ActivateOrderClicked accepted]
             (OP.initial (Some "801xx0001")) in
  let ops := [OP.ProductAddedMessage None;
              OP.RowAction "remove" line accepted;
              OP.CheckOrderActivationStatus (Method.Resolved true)] in
  OP.isActivated s = true /\ OP.isActivated (OP.run (firstn 3 ops) s) = true.
Proof.
  intros line accepted s ops.
  split; [ reflexivity | ].
  apply (proj1 (proj2 activation_kept_unless_check_answers_false) ops s); reflexivity.
Defined.


(** Adding product B of the catalog of 25 rows. *)
Lemma local_add_marks_rows_witness :
  let accepted := {| Apex.success := true; Apex.message := Some "Added";
                     Apex.recordId := Some "802xx0007" |} in
  let run := handleAddProduct (Some "01tB") (Resolved (Some accepted))
               (Resolved (Some (map (Samples.product "B") ["Glasvezel B"]))) in
  map statusLabel (products (fields_after run Samples.loaded)) = [Some "✓ Added"].
Proof.
  intros accepted run. subst run.
  rewrite (proj1 (local_add_marks_rows Samples.loaded (Some "01tB") accepted
                    (map (Samples.product "B") ["Glasvezel B"])
                    eq_refl eq_refl eq_refl)).
  reflexivity.
Defined.

(** An external product added to the view of the catalog of 25 rows. *)
Lemma external_add_shows_reloaded_rows_witness :
  let row := transformed false (Samples.product "EXT" "Partner Router") in
  let accepted := {| Apex.success := true; Apex.message := Some "Added";
                     Apex.recordId := Some "802xx0007" |} in
  let run := handleAddExternalProduct (Some row) (Resolved (Some accepted))
               (Resolved (Some [Samples.product "EXT" "Partner Router"])) in
  products (fields_after run Samples.loaded) = [row].
Proof.
  intros row accepted run.
  exact (proj1 (external_add_shows_reloaded_rows Samples.loaded row accepted
                  [Samples.product "EXT" "Partner Router"] eq_refl eq_refl)).
Defined.

(** The catalog of 25 rows in pages of 10: the view is in range, stays so
    when the user turns the page, and shows rows 21 to 25 on page 3. *)
Lemma current_page_in_range_witness :
  page_in_range Samples.loaded
  /\ page_in_range (step Samples.loaded NextPage)
  /\ map productCode (pagedProducts (run [NextPage; NextPage] Samples.loaded))
     = [Some "U"; Some "V"; Some "W"; Some "X"; Some "Y"].
Proof.
  assert (Hrange : page_in_range Samples.loaded).
  { unfold page_in_range. cbn. lia. }
  split; [ exact Hrange | split ].
  - apply (proj1 current_page_in_range Samples.loaded NextPage Hrange).
  - reflexivity.
Defined.

(** A remote add that resolves to [null]: the read of [success] throws
    inside the [try], and the method still completes. *)
Lemma operations_never_throw_witness :
  Method.completion_of
    (AP.perform (AP.AddProduct (Some "01tB") (Method.Resolved None) (Method.Resolved None)))
    Samples.loaded
  = Js.Normal tt
  /\ OP.rejected_refresh (OP.RowAction "remove"
                            {| OP.orderItemId := None; OP.removeDisabled := None;
                               OP.others := [] |} (Method.Rejected Js.JNull)) = false.
Proof.
  split; [ | reflexivity ].
  apply (proj1 operations_never_throw).
Defined.

(** The catalog of 25 rows, and a reload rejected with an Apex error. *)
Lemma failed_load_clears_rows_witness :
  let e := Js.JObj [("body", Js.JObj [("message", Js.JStr "Pricebook not found")])] in
  let s' := fields_after (loadProducts (Rejected e)) Samples.loaded in
  products s' = [] /\ error s' = Js.JStr "Pricebook not found"
  /\ totalCount s' = totalCount Samples.loaded.
Proof.
  intros e s'.
  destruct (failed_load_clears_rows Samples.loaded (Rejected e) e eq_refl)
    as (Hrows & _ & _ & Herror & _ & _ & _ & Hcounts & _).
  split; [ exact Hrows | split; [ exact Herror | exact (f_equal snd Hcounts) ] ].
Defined.

(** The catalog arrives while the search box holds [glasvezel b]. *)
Lemma load_shows_catalog_under_search_witness :
  let s := fields_after (handleSearch "Glasvezel B") (initial (Some "801xx0001")) in
  let s' := fields_after (loadProducts (Resolved (Some Samples.catalog))) s in
  List.length (products s') = 25%nat /\ map productCode (filteredProducts s') = [Some "B"].
Proof.
  intros s s'.
  destruct (load_shows_catalog_under_search s Samples.catalog)
    as (Hrows & _ & _ & _ & Hshown & _).
  fold s' in Hrows, Hshown. rewrite Hshown, Hrows. split; reflexivity.
Defined.

(** The catalog is loaded, the order turns out to be activated, and the
    user searches: the rows on the page are disabled. *)
Lemma add_stays_disabled_on_activated_order_witness :
  let ops := [LoadProducts (Resolved (Some Samples.catalog));
              CheckActivation (Resolved true);
              Search "Glasvezel B"] in
  let s := run ops (initial (Some "801xx0001")) in
  isActivated s = true
  /\ map productCode (pagedProducts s) = [Some "B"]
  /\ Forall (fun row => disableAdd row = Some true) (pagedProducts s).
Proof.
  intros ops s. split; [ reflexivity | split; [ reflexivity | ] ].
  apply Forall_forall. intros row Hin.
  apply (proj2 (proj2 add_stays_disabled_on_activated_order) ops (Some "801xx0001") row);
    [ reflexivity | exact Hin ].
Defined.

(** The catalog of 25 local rows after an activation check. *)
Lemma stats_count_the_catalog_witness :
  let s := step (fields_after (loadProducts (Resolved (Some Samples.catalog)))
                   (initial (Some "801xx0001")))
             (CheckActivation (Resolved true)) in
  stats_count_catalog s /\ sfCount s + apiCount s = totalCount s /\ totalCount s = 25.
Proof.
  intros s.
  assert (Hs : stats_count_catalog s).
  { apply (proj1 (proj2 stats_count_the_catalog)).
    unfold stats_count_catalog. cbn. intros _. repeat split. }
  split; [ exact Hs | split; [ | reflexivity ] ].
  apply (proj2 (proj2 stats_count_the_catalog) s Hs). discriminate.
Defined.

(** The view of the catalog of 25 rows on an order that is activated: the
    add of product B still goes to the remote. *)
Lemma add_guarded_by_ids_only_witness :
  let s := set_isActivated true Samples.loaded in
  hd_error (effects_of (handleAddProduct (Some "01tB") (Rejected Js.JNull) (Rejected Js.JNull)) s)
  = Some (Remote (AddProductToOrder (Some "801xx0001") (Some "01tB"))).
Proof.
  intros s.
  apply (proj1 (proj2 (add_guarded_by_ids_only s (Rejected Js.JNull) (Rejected Js.JNull)))).
  reflexivity.
Defined.

(** Product B is added from the view of order 801xx0001 while the reload
    fails; the message reaches the line views of two orders. *)
Lemma published_event_reaches_own_order_view_witness :
  let accepted := {| Apex.success := true; Apex.message := Some "Added";
                     Apex.recordId := Some "802xx0007" |} in
  let log := effects_of (handleAddProduct (Some "01tB") (Resolved (Some accepted))
                           (Rejected (Js.JStr "Network error"))) Samples.loaded in
  published log = [ {| Channel.productId := Some "01tB";
                       Channel.orderItemId := Some "802xx0007";
                       Channel.orderId := Some "801xx0001" |} ]
  /\ map (fun rid => List.length
                       (effects_of (OP.handleProductAddedMessage (hd_error (published log)))
                                   (OP.initial (Some rid))))
         ["801xx0001"; "801xx0002"]
     = [2%nat; 0%nat].
Proof.
  intros accepted log. split; [ | reflexivity ].
  apply (proj1 (published_event_reaches_own_order_view Samples.loaded accepted
                  (Rejected (Js.JStr "Network error")) eq_refl eq_refl)).
  reflexivity.
Defined.


(** Two spellings of one term, on the catalog of 25 rows. *)
Lemma search_compares_lower_case_witness :
  Js.toLowerCase "gLASVEZEL b" = Js.toLowerCase "Glasvezel B"
  /\ fields_after (handleSearch "gLASVEZEL b") Samples.loaded
     = fields_after (handleSearch "Glasvezel B") Samples.loaded
  /\ map productCode (filteredProducts (fields_after (handleSearch "Glasvezel B") Samples.loaded))
     = [Some "B"].
Proof.
  split; [ reflexivity | split; [ | reflexivity ] ].
  apply (search_compares_lower_case Samples.loaded "Glasvezel B"). reflexivity.
Defined.

(** C4, as first stated, fails. The capital of the dotless [ı] is [I], and
    the lower case of [I] is [i]: the two are one term in different letter
    case, which [toLowerCase] does not take to the same string. On a
    catalog with the one row [Kırmızı modem], whose lower case is
    [kırmızı modem], the search for [ı] shows the row and the search for
    [I] shows nothing. *)
Lemma search_tells_dotless_i_from_capital :
  let row := {| productId := Some "01tK"; productCode := Some "KM-1";
                productName := Some "Kırmızı modem"; category := Some "Modem";
                brand := Some "KPN"; isExternal := false; sourceIcon := None;
                sourceBadgeClass := None; disableAdd := None; isAddedToOrder := None;
                statusLabel := None; statusClass := None; rowClass := None;
                others := [] |} in
  let s := set_filteredProducts [row] (set_products [row] (initial (Some "801xx0001"))) in
  Js.toLowerCase "I" = "i"
  /\ Js.toLowerCase "ı" = "ı"
  /\ filteredProducts (fields_after (handleSearch "ı") s) = [row]
  /\ filteredProducts (fields_after (handleSearch "I") s) = [].
Proof. repeat split. Qed.


End Examples.
